(** * The NengoDL operator builder (nengo_dl/builder.py)

    A shallow embedding of the build orchestrator [Builder], the base
    capability [OpBuilder], the dispatch adapter [NengoBuilder] and the
    fail-fast model [NengoModel], followed by the properties of the build
    protocol.

    Python code is embedded in a state-and-exception monad: a computation
    takes the store it may mutate and yields either a returned value or a
    raised exception, together with the store as it was left.  A raise does
    not roll the store back, exactly as in Python. *)

From stdpp Require Import gmap strings list fin_maps.
From Stdlib Require Import Floats.SpecFloat.

(** ** Exceptions *)

(** The exception classes the module can meet.  [UserError] stands for any
    class defined elsewhere; its flag tells whether it derives from
    [nengo.exceptions.BuildError], which is what [except BuildError] tests. *)
Inductive exn_class :=
  | BuildError
  | KeyError
  | IndexError
  | AttributeError
  | TypeError
  | UserError (name : string) (derives_BuildError : bool).

Record exn := Exn { exn_cls : exn_class; exn_msg : string }.

Definition isinstance_BuildError (e : exn) : bool :=
  match exn_cls e with
  | BuildError => true
  | UserError _ derives => derives
  | _ => false
  end.

(** ** The effect monad *)

Inductive outcome (A : Type) :=
  | Returned (a : A)
  | Raised (e : exn).
Arguments Returned {A} a.
Arguments Raised {A} e.

Definition M (S A : Type) : Type := S → outcome A * S.

Definition ret {S A} (a : A) : M S A := λ s, (Returned a, s).

Definition bind {S A B} (m : M S A) (k : A → M S B) : M S B :=
  λ s, match m s with
       | (Returned a, s') => k a s'
       | (Raised e, s') => (Raised e, s')
       end.

Definition raise {S A} (e : exn) : M S A := λ s, (Raised e, s).

Definition gets {S A} (f : S → A) : M S A := λ s, (Returned (f s), s).

Definition modify {S} (f : S → S) : M S unit := λ s, (Returned tt, f s).

Definition when {S} (b : bool) (m : M S unit) : M S unit :=
  if b then m else ret tt.

(** [try: m except BuildError: h] *)
Definition try_except_BuildError {S A} (m h : M S A) : M S A :=
  λ s, match m s with
       | (Returned a, s') => (Returned a, s')
       | (Raised e, s') =>
           if isinstance_BuildError e then h s' else (Raised e, s')
       end.

Declare Scope py_scope.
Delimit Scope py_scope with py.
Notation "x <- m ;; k" := (bind m (λ x, k))
  (at level 100, m at next level, right associativity) : py_scope.
Notation "m ;;; k" := (bind m (λ _, k))
  (at level 100, right associativity) : py_scope.
Open Scope py_scope.

(** [for x in l: acc = body(x, acc)], the accumulator being the local
    variables the loop body rebinds. *)
Fixpoint for_fold {S X A} (l : list X) (body : X → A → M S A) (acc : A)
  : M S A :=
  match l with
  | [] => ret acc
  | x :: l' => acc' <- body x acc ;; for_fold l' body acc'
  end.

Definition for_each {S X} (l : list X) (body : X → M S unit) : M S unit :=
  for_fold l (λ x _, body x) tt.

(** ** Python data *)

(** Signals and tensor handles are opaque objects compared by identity. *)
Abbreviation Signal := positive (only parsing).
Abbreviation Tensor := positive (only parsing).
Abbreviation SignalDict := (gmap positive positive) (only parsing).

(** A class object used as a dictionary key: [type(op)]. *)
Record pytype := { ty_module : string; ty_name : string }.

#[global] Instance pytype_eq_dec : EqDecision pytype.
Proof. solve_decision. Defined.

#[global] Instance pytype_countable : Countable pytype.
Proof.
  refine (inj_countable' (λ t, (ty_module t, ty_name t))
            (λ p, {| ty_module := p.1; ty_name := p.2 |}) _).
  by intros [].
Defined.

(** [repr] of a class, which is also what ['%s'] shows. *)
Definition repr_type (t : pytype) : string :=
  "<class '" +:+ ty_module t +:+ "." +:+ ty_name t +:+ "'>".

(** [nengo.builder.Operator] as far as the orchestrator reads it. *)
Record Operator := {
  op_id : positive;
  op_type : pytype;
  op_str : string;
  op_sets : list Signal;
  op_incs : list Signal;
  op_reads : list Signal;
  op_updates : list Signal
}.

#[global] Instance Operator_eq_dec : EqDecision Operator.
Proof. solve_decision. Defined.

(** The long components come first in the encoding, which keeps the codes,
    and so the paths in the maps keyed by groups, short. *)
#[global] Instance Operator_countable : Countable Operator.
Proof.
  refine (inj_countable'
            (λ o, (op_type o, (op_str o, (op_id o, (op_sets o, (op_incs o,
                   (op_reads o, op_updates o)))))))
            (λ p, match p with
                  | (t, (s, (i, (se, (inc, (rd, up)))))) =>
                      {| op_id := i; op_type := t; op_str := s; op_sets := se;
                         op_incs := inc; op_reads := rd; op_updates := up |}
                  end) _).
  by intros [].
Defined.

(** A group of operators is a tuple, hashed and compared element-wise. *)
Abbreviation group := (list Operator) (only parsing).

Record BuildConfig := {
  inference_only : bool;
  lif_smoothing : spec_float;
  cpu_only : bool
}.

#[warnings="-register-all"]
Inductive pyvalue :=
  | PyNone
  | PyTensor (t : Tensor)
  | PyVariable (v : Tensor)
  | PyList (items : list pyvalue)
  | PyTuple (items : list pyvalue)
  | PyConfig (c : BuildConfig)
  | PyOther (repr : string).

(** [isinstance(v, (tf.Tensor, tf.Variable))] *)
Definition isinstance_Tensor_Variable (v : pyvalue) : bool :=
  match v with
  | PyTensor _ | PyVariable _ => true
  | _ => false
  end.

(** [isinstance(v, (list, tuple))], with the items [list(v)] when it holds. *)
Definition isinstance_list_tuple (v : pyvalue) : option (list pyvalue) :=
  match v with
  | PyList items | PyTuple items => Some items
  | _ => None
  end.

(** Records handed to [logger.debug]: the format and its argument. *)
Inductive log_record :=
  | LogMsg (msg : string)
  | LogOps (fmt : string) (ops : group)
  | LogSignals (fmt : string) (sigs : list (list Signal)).

(** ** Builder methods

    A method of a build class runs on the attributes of its instance, the
    signal mapping it was handed and the module logger. *)

Abbreviation attrs := (gmap string pyvalue) (only parsing).

Record frame := {
  this : attrs;
  sigdict : SignalDict;
  logger : list log_record
}.

Abbreviation method A := (M frame A) (only parsing).

Definition debug (r : log_record) : method unit :=
  modify (λ f, {| this := this f; sigdict := sigdict f;
                  logger := logger f ++ [r] |}).

Definition setattr (name : string) (v : pyvalue) : method unit :=
  modify (λ f, {| this := <[name := v]> (this f); sigdict := sigdict f;
                  logger := logger f |}).

Definition newline : string := String (Ascii.ascii_of_nat 10) EmptyString.

Module OpBuilder.

Definition init (class_name : string) (ops : group) (config : BuildConfig)
  : method unit :=
  debug (LogMsg class_name) ;;;
  debug (LogMsg (String.concat newline (map op_str ops))) ;;;
  setattr "config" (PyConfig config).

Definition build_step : method pyvalue :=
  raise (Exn BuildError "OpBuilders must implement a `build_step` function").

Definition mergeable (x y : Operator) : bool := false.

End OpBuilder.

(** A build class: its [__name__], whether it derives from [OpBuilder], and
    the methods its body (or an ancestor other than [OpBuilder]) defines. *)
Record pyclass := {
  cls_name : string;
  cls_inherits_OpBuilder : bool;
  cls_init : option (group → BuildConfig → method unit);
  cls_build_step : option (method pyvalue);
  cls_mergeable : option (Operator → Operator → bool)
}.

Record instance := { inst_class : pyclass; inst_attrs : attrs }.

(** Attribute lookup along the class hierarchy. *)
Definition resolve_init (B : pyclass) (ops : group) (config : BuildConfig)
  : method unit :=
  match cls_init B with
  | Some f => f ops config
  | None =>
      if cls_inherits_OpBuilder B then OpBuilder.init (cls_name B) ops config
      else raise (Exn TypeError (cls_name B +:+ "() takes no arguments"))
  end.

Definition resolve_build_step (B : pyclass) : method pyvalue :=
  match cls_build_step B with
  | Some f => f
  | None =>
      if cls_inherits_OpBuilder B then OpBuilder.build_step
      else raise (Exn AttributeError
                    ("'" +:+ cls_name B +:+
                     "' object has no attribute 'build_step'"))
  end.

Definition resolve_mergeable (B : pyclass) (x y : Operator)
  : outcome bool :=
  match cls_mergeable B with
  | Some f => Returned (f x y)
  | None =>
      if cls_inherits_OpBuilder B then Returned (OpBuilder.mergeable x y)
      else Raised (Exn AttributeError
                     ("type object '" +:+ cls_name B +:+
                      "' has no attribute 'mergeable'"))
  end.

(** ** The orchestrator *)

(** Calls of builder methods in the order they were made, each with how it
    ended.  The source keeps no such list: it is ghost state, kept so that
    "called once per group, in plan order" can be stated. *)
Inductive call :=
  | CallInit (B : pyclass) (ops : group) (r : outcome unit)
  | CallBuildStep (ops : group) (r : outcome pyvalue).

Module Builder.

(** Process-wide state: the class attribute [Builder.builders], the warnings
    and debug records emitted so far, the call history and the steps taken
    by the progress bar. *)
Record process := {
  builders : gmap pytype pyclass;
  warned : list string;
  logged : list log_record;
  calls : list call;
  progress_steps : nat
}.

(** A [Builder] object.  The graph is known by the name scopes opened on it. *)
Record t := {
  plan : list group;
  graph : list string;
  signals : SignalDict;
  config : BuildConfig;
  op_builds : gmap group instance
}.

Record world := { proc : process; self : t }.

Definition init (plan : list group) (graph : list string)
    (signals : SignalDict) (config : BuildConfig) : t :=
  {| plan := plan; graph := graph; signals := signals; config := config;
     op_builds := ∅ |}.

Definition set_builders (f : gmap pytype pyclass → gmap pytype pyclass)
    (p : process) : process :=
  {| builders := f (builders p); warned := warned p; logged := logged p;
     calls := calls p; progress_steps := progress_steps p |}.

Definition add_warning (msg : string) (p : process) : process :=
  {| builders := builders p; warned := warned p ++ [msg]; logged := logged p;
     calls := calls p; progress_steps := progress_steps p |}.

Definition set_logged (l : list log_record) (p : process) : process :=
  {| builders := builders p; warned := warned p; logged := l;
     calls := calls p; progress_steps := progress_steps p |}.

Definition add_call (c : call) (p : process) : process :=
  {| builders := builders p; warned := warned p; logged := logged p;
     calls := calls p ++ [c]; progress_steps := progress_steps p |}.

Definition step_progress (p : process) : process :=
  {| builders := builders p; warned := warned p; logged := logged p;
     calls := calls p; progress_steps := S (progress_steps p) |}.

Definition set_graph (f : list string → list string) (b : t) : t :=
  {| plan := plan b; graph := f (graph b); signals := signals b;
     config := config b; op_builds := op_builds b |}.

Definition set_signals (s : SignalDict) (b : t) : t :=
  {| plan := plan b; graph := graph b; signals := s;
     config := config b; op_builds := op_builds b |}.

Definition set_op_builds (f : gmap group instance → gmap group instance)
    (b : t) : t :=
  {| plan := plan b; graph := graph b; signals := signals b;
     config := config b; op_builds := f (op_builds b) |}.

Definition on_proc (f : process → process) (w : world) : world :=
  {| proc := f (proc w); self := self w |}.

Definition on_self (f : t → t) (w : world) : world :=
  {| proc := proc w; self := f (self w) |}.

Definition logger_debug (r : log_record) : M world unit :=
  modify (on_proc (λ p, set_logged (logged p ++ [r]) p)).

Definition warnings_warn (msg : string) : M process unit :=
  modify (add_warning msg).

Definition progress_step : M world unit := modify (on_proc step_progress).

Definition record_call (c : call) : M world unit :=
  modify (on_proc (add_call c)).

(** [ops[0]] *)
Definition getitem0 (ops : group) : M world Operator :=
  match ops with
  | [] => raise (Exn IndexError "tuple index out of range")
  | op :: _ => ret op
  end.

(** [Builder.builders[T]] *)
Definition builders_getitem (T : pytype) : M world pyclass :=
  reg <- gets (λ w, builders (proc w)) ;;
  match reg !! T with
  | Some B => ret B
  | None => raise (Exn KeyError (repr_type T))
  end.

Definition repr_group (ops : group) : string :=
  "(" +:+ String.concat ", " (map op_str ops) +:+ ")".

(** [self.op_builds[ops]] *)
Definition op_builds_getitem (ops : group) : M world instance :=
  built <- gets (λ w, op_builds (self w)) ;;
  match built !! ops with
  | Some inst => ret inst
  | None => raise (Exn KeyError (repr_group ops))
  end.

(** Runs a method on an instance's attributes with [self.signals] and the
    module logger; what the method did to them stays done however it ends. *)
Definition run_method {A} (a : attrs) (f : method A)
  : M world (outcome A * attrs) :=
  λ w, let fr := {| this := a; sigdict := signals (self w);
                    logger := logged (proc w) |} in
       let r := f fr in
       (Returned (r.1, this r.2),
        on_self (set_signals (sigdict r.2))
          (on_proc (set_logged (logger r.2)) w)).

(** [BuildClass(ops, self.signals, self.config)] *)
Definition instantiate (BuildClass : pyclass) (ops : group)
  : M world instance :=
  cfg <- gets (λ w, config (self w)) ;;
  ra <- run_method ∅ (resolve_init BuildClass ops cfg) ;;
  record_call (CallInit BuildClass ops ra.1) ;;;
  match ra.1 with
  | Returned _ => ret {| inst_class := BuildClass; inst_attrs := ra.2 |}
  | Raised e => raise e
  end.

(** [inst.build_step(self.signals)], [inst] being the object stored under
    [ops], which the call may mutate in place. *)
Definition invoke_build_step (ops : group) (inst : instance)
  : M world pyvalue :=
  ra <- run_method (inst_attrs inst) (resolve_build_step (inst_class inst)) ;;
  modify (on_self (set_op_builds
    (<[ops := {| inst_class := inst_class inst; inst_attrs := ra.2 |}]>))) ;;;
  record_call (CallBuildStep ops ra.1) ;;;
  match ra.1 with
  | Returned v => ret v
  | Raised e => raise e
  end.

(** [utils.sanitize_name] is defined in another module of the package. *)
Section WithSanitizeName.

Variable sanitize_name : string → string.

(** Evaluating [self.name_scope(ops)] and entering the scope. *)
Definition name_scope (ops : group) : M world unit :=
  op0 <- getitem0 ops ;;
  B <- builders_getitem (op_type op0) ;;
  modify (on_self (set_graph (λ g, g ++ [sanitize_name (cls_name B)]))).

(** One iteration of the loop of [pre_build]. *)
Definition pre_build_group (progress : bool) (ops : group) : M world unit :=
  logger_debug (LogMsg "===================") ;;;
  logger_debug (LogOps "PRE BUILD %s" ops) ;;;
  logger_debug (LogSignals "sets %s" (map op_sets ops)) ;;;
  logger_debug (LogSignals "incs %s" (map op_incs ops)) ;;;
  logger_debug (LogSignals "reads %s" (map op_reads ops)) ;;;
  logger_debug (LogSignals "updates %s" (map op_updates ops)) ;;;
  op0 <- getitem0 ops ;;
  reg <- gets (λ w, builders (proc w)) ;;
  match reg !! op_type op0 with
  | None =>
      raise (Exn BuildError
               ("No registered builder for operators of type " +:+
                repr_type (op_type op0)))
  | Some _ => ret tt
  end ;;;
  BuildClass <- builders_getitem (op_type op0) ;;
  name_scope ops ;;;
  inst <- instantiate BuildClass ops ;;
  modify (on_self (set_op_builds (<[ops := inst]>))) ;;;
  when progress progress_step.

Definition pre_build (progress : bool) : M world unit :=
  p <- gets (λ w, plan (self w)) ;;
  for_each p (pre_build_group progress).

(** One iteration of the loop of [build]; [side_effects] is the list the
    loop appends to. *)
Definition build_group (progress : bool) (ops : group)
    (side_effects : list pyvalue) : M world (list pyvalue) :=
  logger_debug (LogMsg "===================") ;;;
  logger_debug (LogOps "BUILD %s" ops) ;;;
  name_scope ops ;;;
  inst <- op_builds_getitem ops ;;
  output <- invoke_build_step ops inst ;;
  side_effects' <-
    (if isinstance_Tensor_Variable output then ret (side_effects ++ [output])
     else match isinstance_list_tuple output with
          | Some items => ret (side_effects ++ items)
          | None => ret side_effects
          end) ;;
  when progress progress_step ;;;
  ret side_effects'.

Definition build (progress : bool) : M world (list pyvalue) :=
  p <- gets (λ w, plan (self w)) ;;
  for_fold p (build_group progress) [].

End WithSanitizeName.

(** [Builder.register(nengo_op)(build_class)] *)
Definition register (nengo_op : pytype) (build_class : pyclass)
  : M process pyclass :=
  when (negb (cls_inherits_OpBuilder build_class))
    (warnings_warn "Build classes should inherit from OpBuilder") ;;;
  reg <- gets builders ;;
  when (bool_decide (is_Some (reg !! nengo_op)))
    (warnings_warn ("Operator '" +:+ repr_type nengo_op +:+
                    "' already has a builder. Overwriting.")) ;;;
  modify (set_builders (<[nengo_op := build_class]>)) ;;;
  ret build_class.

End Builder.

(** ** The dispatch adapter *)

Module NengoBuilder.

(** The class a call of [Builder.build.__func__] is made on, which decides
    whose [builders] registry is searched. *)
Inductive builder_class :=
  | NengoBuilder_cls
  | nengo_Builder_cls.

Section Dispatch.

(** The model is the store the build functions mutate. *)
Context {Model Obj Args Value : Type}.

(** [nengo.builder.Builder.build.__func__] belongs to the Nengo library. *)
Variable Builder_build : builder_class → Obj → Args → M Model Value.

Definition build (obj : Obj) (args : Args) : M Model Value :=
  try_except_BuildError
    (Builder_build NengoBuilder_cls obj args)
    (Builder_build nengo_Builder_cls obj args).

End Dispatch.

Section Lookup.

Context {Model Obj Args Value : Type}.

Variable type_of : Obj → pytype.
Variable registry :
  builder_class → gmap pytype (Obj → Args → M Model Value).

(** Modelled from the spec: the dispatch of [nengo.builder.Builder.build],
    which is not part of this package, "keyed by [type(obj)]", a miss being
    "signaled by a build-error-class condition". *)
Definition lookup_build (cls : builder_class) (obj : Obj) (args : Args)
  : M Model Value :=
  match registry cls !! type_of obj with
  | Some build_function => build_function obj args
  | None =>
      raise (Exn BuildError
               ("Cannot build object of type '" +:+
                ty_name (type_of obj) +:+ "'"))
  end.

End Lookup.

End NengoBuilder.

(** ** The fail-fast model *)

Module NengoModel.

(** What the methods of an operator act on: the signal dictionary they are
    handed ([nengo.builder.signal.SignalDict], from signals to arrays) and
    the global generator [np.random]. *)
Record opframe := {
  tmp_signals : gmap positive (list Z);
  np_random : N
}.

(** An operator object with the two methods [add_op] calls. *)
Record operator := {
  op_data : Operator;
  init_signals : M opframe unit;
  make_step : spec_float → M opframe pyvalue
}.

Inductive opcall :=
  | CallInitSignals (op : Operator) (r : outcome unit)
  | CallMakeStep (op : Operator) (r : outcome pyvalue).

Record t := {
  operators : list operator;
  fail_fast : bool;
  dt : spec_float
}.

(** The model, the state of [np.random], and the history of the calls made
    on operators (ghost state, as for the orchestrator). *)
Record world := {
  self : t;
  rng : N;
  opcalls : list opcall
}.

Definition init (dt : spec_float) (fail_fast : bool) : t :=
  {| operators := []; fail_fast := fail_fast; dt := dt |}.

Definition operators_append (op : operator) : M world unit :=
  modify (λ w,
    {| self := {| operators := operators (self w) ++ [op];
                  fail_fast := fail_fast (self w); dt := dt (self w) |};
       rng := rng w; opcalls := opcalls w |}).

(** Runs a method of an operator on the local [signals]; yields the
    dictionary as the method left it. *)
Definition run_opmethod {A} (f : M opframe A)
    (record : outcome A → opcall) (signals : gmap positive (list Z))
  : M world (A * gmap positive (list Z)) :=
  λ w, let r := f {| tmp_signals := signals; np_random := rng w |} in
       let w' := {| self := self w; rng := np_random r.2;
                    opcalls := opcalls w ++ [record r.1] |} in
       match r.1 with
       | Returned a => (Returned (a, tmp_signals r.2), w')
       | Raised e => (Raised e, w')
       end.

Definition add_op (op : operator) : M world unit :=
  operators_append op ;;;
  ff <- gets (λ w, fail_fast (self w)) ;;
  if ff then
    let signals : gmap positive (list Z) := ∅ in
    r1 <- run_opmethod (init_signals op) (CallInitSignals (op_data op))
            signals ;;
    dt <- gets (λ w, dt (self w)) ;;
    run_opmethod (make_step op dt) (CallMakeStep (op_data op)) r1.2 ;;;
    ret tt
  else ret tt.

End NengoModel.

(** * Vocabulary of the statements *)

Import Builder.

(** The class object [OpBuilder] itself: it derives from itself and
    overrides nothing. *)
Definition OpBuilder_cls : pyclass :=
  {| cls_name := "OpBuilder"; cls_inherits_OpBuilder := true;
     cls_init := None; cls_build_step := None; cls_mergeable := None |}.

(** The debug records one pass of the loop of [pre_build] emits first. *)
Definition pre_build_records (ops : group) : list log_record :=
  [ LogMsg "==================="; LogOps "PRE BUILD %s" ops;
    LogSignals "sets %s" (map op_sets ops);
    LogSignals "incs %s" (map op_incs ops);
    LogSignals "reads %s" (map op_reads ops);
    LogSignals "updates %s" (map op_updates ops) ].

(** The debug records one pass of the loop of [build] emits first. *)
Definition build_records (ops : group) : list log_record :=
  [ LogMsg "==================="; LogOps "BUILD %s" ops ].

(** What the output of one [build_step] adds to the side effects, as the
    specification words it: a single handle counts once, a sequence is
    expanded, anything else is ignored. *)
Definition contribution (output : pyvalue) : list pyvalue :=
  match output with
  | PyTensor _ | PyVariable _ => [output]
  | PyList items | PyTuple items => items
  | _ => []
  end.


(** The group has an instantiated builder, and its scope can be named. *)
Definition has_builder (w : world) (ops : group) : Prop :=
  ∃ op0, head ops = Some op0 ∧
         is_Some (builders (proc w) !! op_type op0) ∧
         is_Some (op_builds (self w) !! ops).

(** The process as module loading finds it. *)
Definition fresh_process : process :=
  {| builders := ∅; warned := []; logged := []; calls := [];
     progress_steps := 0 |}.

(** The registration calls made at module-load time, in order. *)
Definition register_all (regs : list (pytype * pyclass)) : M process unit :=
  for_each regs (λ r, register r.1 r.2 ;;; ret tt).


(** The class the registry gives for the representative of a group. *)
Definition class_for (reg : gmap pytype pyclass) (ops : group)
  : option pyclass :=
  match head ops with
  | Some op0 => reg !! op_type op0
  | None => None
  end.

(** The constructor of [B], resp. its [build_step], raises on no input. *)
Definition init_returns (B : pyclass) : Prop :=
  ∀ ops cfg fr, ∃ fr', resolve_init B ops cfg fr = (Returned tt, fr').



(** [c] is the returning construction, for [ops], of the class registered
    for [ops]. *)
Definition init_call (reg : gmap pytype pyclass) (ops : group) (c : call)
  : Prop :=
  ∃ B, class_for reg ops = Some B ∧ c = CallInit B ops (Returned tt).

(** [op_builds] holds, under [ops], an instance of the class registered for
    [ops]. *)
Definition built_with (reg : gmap pytype pyclass) (w : world) (ops : group)
  : Prop :=
  ∃ inst, op_builds (self w) !! ops = Some inst ∧
          class_for reg ops = Some (inst_class inst).

(** The temporary dictionary and the generator [add_op] hands to
    [op.init_signals]. *)
Definition fresh_opframe (w : NengoModel.world) : NengoModel.opframe :=
  {| NengoModel.tmp_signals := ∅; NengoModel.np_random := NengoModel.rng w |}.

(** ** A small build: two groups, two build classes *)

Definition Reset_type : pytype :=
  {| ty_module := "nengo.builder.operator"; ty_name := "Reset" |}.

Definition Copy_type : pytype :=
  {| ty_module := "nengo.builder.operator"; ty_name := "Copy" |}.

Definition reset1 : Operator :=
  {| op_id := 1; op_type := Reset_type; op_str := "Reset{a}";
     op_sets := [1%positive]; op_incs := []; op_reads := [];
     op_updates := [] |}.

Definition reset2 : Operator :=
  {| op_id := 2; op_type := Reset_type; op_str := "Reset{b}";
     op_sets := [2%positive]; op_incs := []; op_reads := [];
     op_updates := [] |}.

Definition copy1 : Operator :=
  {| op_id := 3; op_type := Copy_type; op_str := "Copy{a -> c}";
     op_sets := [3%positive]; op_incs := []; op_reads := [1%positive];
     op_updates := [] |}.

Definition group_A : group := [reset1; reset2].
Definition group_B : group := [copy1].

(** A builder whose step yields one tensor, one whose step yields a list of
    two, and one that overrides nothing. *)
Definition ResetBuilder : pyclass :=
  {| cls_name := "ResetBuilder"; cls_inherits_OpBuilder := true;
     cls_init := None;
     cls_build_step := Some (ret (PyTensor 10));
     cls_mergeable := None |}.

Definition CopyBuilder : pyclass :=
  {| cls_name := "CopyBuilder"; cls_inherits_OpBuilder := true;
     cls_init := None;
     cls_build_step := Some (ret (PyList [PyTensor 20; PyVariable 21]));
     cls_mergeable := None |}.

Definition LazyBuilder : pyclass :=
  {| cls_name := "LazyBuilder"; cls_inherits_OpBuilder := true;
     cls_init := None; cls_build_step := None; cls_mergeable := None |}.

Definition example_config : BuildConfig :=
  {| inference_only := false; lif_smoothing := S754_zero false;
     cpu_only := true |}.

Definition example_builder : Builder.t :=
  Builder.init [group_A; group_B] [] {[ 1%positive := 7%positive ]}
    example_config.

Definition example_regs : list (pytype * pyclass) :=
  [(Reset_type, ResetBuilder); (Copy_type, CopyBuilder)].

(** Both types registered, resp. only the first. *)
Definition example_world : world :=
  {| proc := (register_all example_regs fresh_process).2;
     self := example_builder |}.

Definition example_world_partial : world :=
  {| proc := (register Reset_type ResetBuilder fresh_process).2;
     self := example_builder |}.

(** An operator whose [make_step] is not implemented. *)
Definition unimplemented_op : NengoModel.operator :=
  {| NengoModel.op_data := reset1;
     NengoModel.init_signals :=
       modify (λ fr, {| NengoModel.tmp_signals :=
                          <[1%positive := [0%Z]]> (NengoModel.tmp_signals fr);
                        NengoModel.np_random := NengoModel.np_random fr |});
     NengoModel.make_step := λ _,
       raise (Exn (UserError "NotImplementedError" false)
                "subclasses must implement this method.") |}.

Definition example_model (fail_fast : bool) : NengoModel.world :=
  {| NengoModel.self := NengoModel.init (S754_finite false 1 (-10)) fail_fast;
     NengoModel.rng := 0; NengoModel.opcalls := [] |}.

(** A model builder with no override for [Reset_type], a failing override
    for [Copy_type], and the default build functions for both. *)
Definition example_dispatch (cls : NengoBuilder.builder_class)
  : gmap pytype (Operator → unit → M (list string) pyvalue) :=
  match cls with
  | NengoBuilder.NengoBuilder_cls =>
      {[ Copy_type :=
           λ _ _, modify (λ m, m ++ ["override began"]) ;;;
                  raise (Exn BuildError "override gave up") ]}
  | NengoBuilder.nengo_Builder_cls =>
      {[ Reset_type := λ _ _, modify (λ m, m ++ ["reset built"]) ;;;
                              ret PyNone;
         Copy_type := λ _ _, modify (λ m, m ++ ["copy built"]) ;;;
                             ret PyNone ]}
  end.

(** * The last phase: [post_build] *)

Module PostBuild.

(** What [build_post] acts on: the attributes of its instance, the signal
    mapping, the module logger, the session (known by the values its
    variables hold) and the state of the seeded generator. *)
Record post_frame := {
  post_this : attrs;
  post_sigdict : SignalDict;
  post_logger : list log_record;
  post_sess : gmap positive (list Z);
  post_rng : N
}.

(** [OpBuilder.build_post]: the body is its docstring. *)
Definition OpBuilder_build_post (ops : group) : M post_frame unit := ret tt.

(** A call of [build_post]: the group, the state of the generator it was
    handed and the state it left, and how it ended. *)
Record post_call := {
  pc_ops : group;
  pc_rng_in : N;
  pc_rng_out : N;
  pc_result : outcome unit
}.

(** The orchestrator with the session and the generator handed to
    [post_build], and the calls of [build_post] made so far (ghost state,
    as [calls] is). *)
Record world := {
  base : Builder.world;
  sess : gmap positive (list Z);
  rng : N;
  post_calls : list post_call
}.

(** A step of the orchestrator that touches neither session nor
    generator. *)
Definition lift {A} (m : M Builder.world A) : M world A :=
  λ w, match m (base w) with
       | (r, b) => (r, {| base := b; sess := sess w; rng := rng w;
                          post_calls := post_calls w |})
       end.

Section WithClasses.

Variable sanitize_name : string → string.

(** The [build_post] a build class defines, if it defines one. *)
Variable cls_build_post : pyclass → option (group → M post_frame unit).

Definition resolve_build_post (B : pyclass) (ops : group)
  : M post_frame unit :=
  match cls_build_post B with
  | Some f => f ops
  | None =>
      if cls_inherits_OpBuilder B then OpBuilder_build_post ops
      else raise (Exn AttributeError
                    ("'" +:+ cls_name B +:+
                     "' object has no attribute 'build_post'"))
  end.

(** [inst.build_post(ops, self.signals, sess, rng)], [inst] being the
    object stored under [ops]. *)
Definition invoke_build_post (ops : group) (inst : instance) : M world unit :=
  λ w,
    let r := resolve_build_post (inst_class inst) ops
               {| post_this := inst_attrs inst;
                  post_sigdict := signals (self (base w));
                  post_logger := logged (proc (base w));
                  post_sess := sess w; post_rng := rng w |} in
    let b :=
      on_self (set_op_builds
                 (<[ops := {| inst_class := inst_class inst;
                              inst_attrs := post_this r.2 |}]>))
        (on_self (set_signals (post_sigdict r.2))
           (on_proc (set_logged (post_logger r.2)) (base w))) in
    (r.1, {| base := b; sess := post_sess r.2; rng := post_rng r.2;
             post_calls :=
               post_calls w ++
               [{| pc_ops := ops; pc_rng_in := rng w;
                   pc_rng_out := post_rng r.2; pc_result := r.1 |}] |}).

(** One iteration of the loop of [post_build]. *)
Definition post_build_group (progress : bool) (ops : group) : M world unit :=
  lift (logger_debug (LogMsg "===================")) ;;;
  lift (logger_debug (LogOps "POST BUILD %s" ops)) ;;;
  lift (name_scope sanitize_name ops) ;;;
  inst <- lift (op_builds_getitem ops) ;;
  invoke_build_post ops inst ;;;
  when progress (lift progress_step).

Definition post_build (progress : bool) : M world unit :=
  p <- gets (λ w, plan (self (base w))) ;;
  for_each p (post_build_group progress).

End WithClasses.

End PostBuild.

(** The scope opened for a group is named after the class registered for
    it. *)
Definition scope_named (sanitize_name : string → string)
    (reg : gmap pytype pyclass) (ops : group) (name : string) : Prop :=
  ∃ B, class_for reg ops = Some B ∧ name = sanitize_name (cls_name B).

(** The debug records one pass of the loop of [post_build] emits first. *)
Definition post_build_records (ops : group) : list log_record :=
  [ LogMsg "==================="; LogOps "POST BUILD %s" ops ].


(** The frame [build_post] is called on for the instance under [ops]. *)
Definition post_frame_of (w : PostBuild.world) (ops : group)
    (inst : instance) : PostBuild.post_frame :=
  {| PostBuild.post_this := inst_attrs inst;
     PostBuild.post_sigdict := signals (self (PostBuild.base w));
     PostBuild.post_logger :=
       logged (proc (PostBuild.base w)) ++ post_build_records ops;
     PostBuild.post_sess := PostBuild.sess w;
     PostBuild.post_rng := PostBuild.rng w |}.

(** ** More builds *)

(** A builder whose constructor writes a tensor into the signals and then
    gives up. *)
Definition FailingBuilder : pyclass :=
  {| cls_name := "FailingBuilder"; cls_inherits_OpBuilder := true;
     cls_init := Some (λ _ _,
       modify (λ fr, {| this := this fr;
                        sigdict := <[9%positive := 9%positive]> (sigdict fr);
                        logger := logger fr |}) ;;;
       raise (Exn (UserError "ValueError" false) "shapes do not match"));
     cls_build_step := None; cls_mergeable := None |}.

Definition example_world_failing : world :=
  {| proc := (register_all [(Reset_type, ResetBuilder);
                            (Copy_type, FailingBuilder)] fresh_process).2;
     self := example_builder |}.

(** A plan with an empty group. *)
Definition example_world_empty_group : world :=
  {| proc := fresh_process;
     self := Builder.init [[]] [] ∅ example_config |}.

(** A builder that draws from the generator after the build and records the
    draw in the session; no other class defines [build_post]. *)
Definition example_build_post (B : pyclass)
  : option (group → M PostBuild.post_frame unit) :=
  if String.eqb (cls_name B) "CopyBuilder" then
    Some (λ _, modify (λ fr,
      {| PostBuild.post_this := PostBuild.post_this fr;
         PostBuild.post_sigdict := PostBuild.post_sigdict fr;
         PostBuild.post_logger := PostBuild.post_logger fr;
         PostBuild.post_sess :=
           <[20%positive := [Z.of_N (PostBuild.post_rng fr)]]>
             (PostBuild.post_sess fr);
         PostBuild.post_rng := N.succ (PostBuild.post_rng fr) |}))
  else None.

(** The orchestrator after [pre_build], with a session and a generator. *)
Definition example_post_world : PostBuild.world :=
  {| PostBuild.base := (pre_build (λ s, s) false example_world).2;
     PostBuild.sess := ∅; PostBuild.rng := 42;
     PostBuild.post_calls := [] |}.

(** An operator whose [init_signals] fails, and one that passes the
    check, drawing once from the generator. *)
Definition unprepared_op : NengoModel.operator :=
  {| NengoModel.op_data := reset2;
     NengoModel.init_signals :=
       raise (Exn (UserError "SignalError" false) "signal is not initialised");
     NengoModel.make_step := λ _, ret (PyOther "step") |}.

Definition sound_op : NengoModel.operator :=
  {| NengoModel.op_data := copy1;
     NengoModel.init_signals :=
       modify (λ fr, {| NengoModel.tmp_signals :=
                          <[3%positive := [0%Z]]> (NengoModel.tmp_signals fr);
                        NengoModel.np_random := NengoModel.np_random fr |});
     NengoModel.make_step := λ _,
       modify (λ fr, {| NengoModel.tmp_signals := NengoModel.tmp_signals fr;
                        NengoModel.np_random :=
                          N.succ (NengoModel.np_random fr) |}) ;;;
       ret (PyOther "step") |}.

(** A dispatch whose override fails with an error that is no build error. *)
Definition example_dispatch_type_error (cls : NengoBuilder.builder_class)
  : gmap pytype (Operator → unit → M (list string) pyvalue) :=
  match cls with
  | NengoBuilder.NengoBuilder_cls =>
      {[ Copy_type :=
           λ _ _, modify (λ m, m ++ ["override began"]) ;;;
                  raise (Exn TypeError "unsupported operand") ]}
  | NengoBuilder.nengo_Builder_cls =>
      {[ Copy_type := λ _ _, modify (λ m, m ++ ["copy built"]) ;;;
                             ret PyNone ]}
  end.

(** Two worlds that differ at most in the classes the registry holds for
    the registered types, and in the scopes opened on the graph. *)
Definition same_but_classes (w w' : world) : Prop :=
  dom (builders (proc w')) = dom (builders (proc w)) ∧
  warned (proc w') = warned (proc w) ∧
  logged (proc w') = logged (proc w) ∧
  calls (proc w') = calls (proc w) ∧
  progress_steps (proc w') = progress_steps (proc w) ∧
  plan (self w') = plan (self w) ∧
  signals (self w') = signals (self w) ∧
  config (self w') = config (self w) ∧
  op_builds (self w') = op_builds (self w).

(** The first group built with a class that has no [build_step]. *)
Definition example_world_lazy : world :=
  {| proc := proc example_world;
     self := set_op_builds
               (λ _, {[ group_A := {| inst_class := LazyBuilder;
                                      inst_attrs := ∅ |} ]})
               example_builder |}.

(** * Properties *)

(** ** Loops *)

(** The rule for [for] loops: an invariant indexed by the items already
    gone through, and what holds if a pass raises. *)
Lemma for_fold_inv {S X A} (I : list X → A → S → Prop) (E : exn → S → Prop)
    (body : X → A → M S A) (l : list X) :
  (∀ done x rest acc s, l = done ++ x :: rest → I done acc s →
     match body x acc s with
     | (Returned acc', s') => I (done ++ [x]) acc' s'
     | (Raised e, s') => E e s'
     end) →
  ∀ acc s, I [] acc s →
  match for_fold l body acc s with
  | (Returned acc', s') => I l acc' s'
  | (Raised e, s') => E e s'
  end.
Proof.
  intros Hbody.
  assert (Hgen : ∀ rest done acc s, l = done ++ rest → I done acc s →
            match for_fold rest body acc s with
            | (Returned acc', s') => I l acc' s'
            | (Raised e, s') => E e s'
            end).
  { induction rest as [|x rest IH]; intros done acc s Hl HI; simpl.
    - unfold ret. rewrite app_nil_r in Hl. by subst.
    - unfold bind. specialize (Hbody done x rest acc s Hl HI).
      destruct (body x acc s) as [[acc'|e] s']; [|done].
      apply (IH (done ++ [x])); [|done]. by rewrite <- app_assoc. }
  intros acc s HI. by apply (Hgen l []).
Qed.

Lemma for_fold_app {S X A} (l1 l2 : list X) (body : X → A → M S A) acc s :
  for_fold (l1 ++ l2) body acc s =
    match for_fold l1 body acc s with
    | (Returned acc', s') => for_fold l2 body acc' s'
    | (Raised e, s') => (Raised e, s')
    end.
Proof.
  revert acc s. induction l1 as [|x l1 IH]; intros acc s; simpl; [done|].
  unfold bind. destruct (body x acc s) as [[acc'|e] s']; [apply IH | done].
Qed.

(** ** One pass of the loop of [pre_build] *)

(** On a group whose type is not registered. *)
Lemma pre_build_group_unregistered sanitize_name progress ops op0 w :
  head ops = Some op0 →
  builders (proc w) !! op_type op0 = None →
  pre_build_group sanitize_name progress ops w =
    (Raised (Exn BuildError ("No registered builder for operators of type " +:+
                             repr_type (op_type op0))),
     on_proc (λ p, set_logged (logged p ++ pre_build_records ops) p) w).
Proof.
  intros Hhd Hreg. destruct ops as [|o tl]; simplify_eq/=.
  unfold pre_build_group, bind, logger_debug, modify, gets, getitem0, ret.
  simpl. rewrite Hreg. unfold raise. f_equal.
  unfold on_proc, set_logged; simpl. repeat rewrite <- app_assoc. reflexivity.
Qed.

(** On a group whose type is registered: the constructor of the registered
    class is called once, and its instance is stored if it returns. *)
Lemma pre_build_group_registered sanitize_name progress ops op0 B w :
  head ops = Some op0 →
  builders (proc w) !! op_type op0 = Some B →
  let r := resolve_init B ops (config (self w))
             {| this := ∅; sigdict := signals (self w);
                logger := logged (proc w) ++ pre_build_records ops |} in
  let res := pre_build_group sanitize_name progress ops w in
  builders (proc res.2) = builders (proc w) ∧
  plan (self res.2) = plan (self w) ∧
  config (self res.2) = config (self w) ∧
  calls (proc res.2) = calls (proc w) ++ [CallInit B ops r.1] ∧
  match r.1 with
  | Returned _ =>
      res.1 = Returned tt ∧
      op_builds (self res.2) =
        <[ops := {| inst_class := B; inst_attrs := this r.2 |}]>
          (op_builds (self w))
  | Raised e =>
      res.1 = Raised e ∧ op_builds (self res.2) = op_builds (self w)
  end.
Proof.
  intros Hhd Hreg r res. destruct ops as [|o tl]; simplify_eq/=.
  subst r res.
  unfold pre_build_group, name_scope, builders_getitem, instantiate, run_method,
    record_call, bind, logger_debug, modify, gets, getitem0, ret, pre_build_records.
  simpl. repeat (rewrite Hreg; simpl).
  repeat rewrite <- app_assoc. simpl.
  destruct (resolve_init B _ _ _) as [[u|e] fr']; simpl.
  - destruct progress; simpl; done.
  - done.
Qed.

(** On an empty group. *)
Lemma pre_build_group_empty sanitize_name progress w :
  pre_build_group sanitize_name progress [] w =
    (Raised (Exn IndexError "tuple index out of range"),
     on_proc (λ p, set_logged (logged p ++ pre_build_records []) p) w).
Proof.
  unfold pre_build_group, bind, logger_debug, modify, gets, getitem0, ret, raise.
  simpl. f_equal.
  unfold on_proc, set_logged; simpl. repeat rewrite <- app_assoc. reflexivity.
Qed.

(** Whatever a pass of the loop of [pre_build] does, it leaves the registry
    alone, only extends the call history, and touches [op_builds] at most
    under its own group; it returns only for a registered group. *)
Lemma pre_build_group_effect sanitize_name progress ops w :
  let res := pre_build_group sanitize_name progress ops w in
  builders (proc res.2) = builders (proc w) ∧
  plan (self res.2) = plan (self w) ∧
  config (self res.2) = config (self w) ∧
  (∃ more, calls (proc res.2) = calls (proc w) ++ more) ∧
  (∀ k, k ≠ ops → op_builds (self res.2) !! k = op_builds (self w) !! k) ∧
  (∀ u, res.1 = Returned u →
     ∃ op0 B inst, head ops = Some op0 ∧
       builders (proc w) !! op_type op0 = Some B ∧ inst_class inst = B ∧
       op_builds (self res.2) = <[ops := inst]> (op_builds (self w))).
Proof.
  intros res. subst res.
  destruct (head ops) as [op0|] eqn:Hhd.
  - destruct (builders (proc w) !! op_type op0) as [B|] eqn:Hreg.
    + pose proof (pre_build_group_registered sanitize_name progress ops op0 B w
                    Hhd Hreg) as (Hb & Hp & Hc & Hcalls & Hres).
      simpl in *. repeat split; try done; [eauto| |].
      * intros k Hk. destruct (resolve_init _ _ _ _).1; destruct Hres as [_ ->];
          [by rewrite lookup_insert_ne | done].
      * intros u Hu. destruct (resolve_init _ _ _ _).1; destruct Hres as [Hr ->];
          [|congruence].
        by exists op0, B, {| inst_class := B; inst_attrs := this (resolve_init B ops (config (self w)) {| this := ∅; sigdict := signals (self w); logger := logged (proc w) ++ pre_build_records ops |}).2 |}.
    + rewrite (pre_build_group_unregistered _ _ _ op0) by done. simpl.
      repeat split; try done. exists []. by rewrite app_nil_r.
  - destruct ops; [|done]. rewrite pre_build_group_empty. simpl.
    repeat split; try done. exists []. by rewrite app_nil_r.
Qed.

(** The groups a returning run of the loop of [pre_build] went through were
    all registered, and the entries of [op_builds] under other keys are as
    before. *)
Lemma pre_build_loop_returned sanitize_name progress l w w1 :
  for_each l (pre_build_group sanitize_name progress) w = (Returned tt, w1) →
  builders (proc w1) = builders (proc w) ∧
  (∀ k, k ∉ l → op_builds (self w1) !! k = op_builds (self w) !! k) ∧
  Forall (λ k, ∃ op0, head k = Some op0 ∧
                      is_Some (builders (proc w) !! op_type op0)) l.
Proof.
  intros Hrun. unfold for_each in Hrun.
  pose (I := λ (done : list group) (_ : unit) (s : world),
          builders (proc s) = builders (proc w) ∧
          (∀ k, k ∉ done → op_builds (self s) !! k = op_builds (self w) !! k) ∧
          Forall (λ k, ∃ op0, head k = Some op0 ∧
                              is_Some (builders (proc w) !! op_type op0)) done).
  assert (Hbody : ∀ done x rest acc s, l = done ++ x :: rest → I done acc s →
            match pre_build_group sanitize_name progress x s with
            | (Returned acc', s') => I (done ++ [x]) acc' s'
            | (Raised e, s') => True
            end).
  { intros done x rest [] s _ (Hb & Hk & Hall).
    pose proof (pre_build_group_effect sanitize_name progress x s)
      as (Hb' & _ & _ & _ & Hk' & Hret).
    destruct (pre_build_group sanitize_name progress x s) as [[u|e] s']; [|done].
    simpl in *. destruct (Hret u eq_refl) as (op0 & B & inst & Hhd & HB & _ & _).
    split; [congruence|]. split.
    - intros k Hin. apply not_elem_of_app in Hin as [Hin Hne].
      apply not_elem_of_cons in Hne as [Hne _]. rewrite Hk' by done. by apply Hk.
    - apply Forall_app. split; [done|]. apply Forall_singleton.
      exists op0. split; [done|]. rewrite <- Hb. eauto. }
  pose proof (for_fold_inv I (λ _ _, True)
                (λ x _, pre_build_group sanitize_name progress x) l
                Hbody tt w) as Hloop.
  rewrite Hrun in Hloop. apply Hloop. by repeat split.
Qed.

Lemma pre_build_loop_calls sanitize_name progress l w :
  ∃ more,
    calls (proc (for_each l (pre_build_group sanitize_name progress) w).2)
    = calls (proc w) ++ more.
Proof.
  revert w. induction l as [|ops l IH]; intros w.
  - exists []. by rewrite app_nil_r.
  - unfold for_each. simpl. unfold bind.
    pose proof (pre_build_group_effect sanitize_name progress ops w)
      as (_ & _ & _ & [more1 Hc] & _).
    destruct (pre_build_group sanitize_name progress ops w) as [[[]|e] w'];
      simpl in *; [|eauto].
    destruct (IH w') as [more2 Hc2]. unfold for_each in Hc2.
    exists (more1 ++ more2). by rewrite Hc2, Hc, <- app_assoc.
Qed.

(** [pre_build] on groups whose classes are registered and whose
    constructors return. *)
Lemma pre_build_effect sanitize_name progress w :
  (∀ ops, ops ∈ plan (self w) →
     ∃ B, class_for (builders (proc w)) ops = Some B ∧ init_returns B) →
  ∃ w1 new,
    pre_build sanitize_name progress w = (Returned tt, w1) ∧
    builders (proc w1) = builders (proc w) ∧
    plan (self w1) = plan (self w) ∧
    calls (proc w1) = calls (proc w) ++ new ∧
    Forall2 (init_call (builders (proc w))) (plan (self w)) new ∧
    dom (op_builds (self w1)) =
      dom (op_builds (self w)) ∪ list_to_set (plan (self w)) ∧
    Forall (built_with (builders (proc w)) w1) (plan (self w)).
Proof.
  intros Hplan. unfold pre_build, bind, gets, for_each.
  pose (I := λ (done : list group) (_ : unit) (s : world),
          builders (proc s) = builders (proc w) ∧
          plan (self s) = plan (self w) ∧
          (∃ new, calls (proc s) = calls (proc w) ++ new ∧
                  Forall2 (init_call (builders (proc w))) done new) ∧
          dom (op_builds (self s)) =
            dom (op_builds (self w)) ∪ list_to_set done ∧
          Forall (built_with (builders (proc w)) s) done).
  assert (Hbody : ∀ done x rest acc s,
            plan (self w) = done ++ x :: rest → I done acc s →
            match pre_build_group sanitize_name progress x s with
            | (Returned acc', s') => I (done ++ [x]) acc' s'
            | (Raised e, s') => False
            end).
  { intros done ops rest [] s Hl (Hb & Hp & (new & Hc & Hnew) & Hdom & Hall).
    destruct (Hplan ops) as (B & HB & Hinit);
      [rewrite Hl; apply elem_of_app; right; apply elem_of_cons; by left|].
    unfold class_for in HB. destruct (head ops) as [op0|] eqn:Hhd; [|done].
    rewrite <- Hb in HB.
    pose proof (pre_build_group_registered sanitize_name progress ops op0 B s
                  Hhd HB) as (Hb' & Hp' & _ & Hc' & Hres).
    simpl in *.
    destruct (Hinit ops (config (self s))
                {| this := ∅; sigdict := signals (self s);
                   logger := logged (proc s) ++ pre_build_records ops |})
      as [fr' Hrun].
    rewrite Hrun in *. simpl in *. destruct Hres as [Hret Hob].
    destruct (pre_build_group sanitize_name progress ops s) as [r s'].
    simpl in *. subst r.
    assert (Hcls : class_for (builders (proc w)) ops = Some B).
    { unfold class_for. rewrite Hhd. congruence. }
    split; [congruence|]. split; [congruence|]. split; [|split].
    - exists (new ++ [CallInit B ops (Returned tt)]). split.
      + rewrite Hc', Hc. by rewrite <- app_assoc.
      + apply Forall2_app; [done|]. constructor; [by exists B | constructor].
    - rewrite Hob, dom_insert_L, Hdom, list_to_set_snoc_L.
      rewrite (comm_L (∪) {[ops]}). by rewrite (assoc_L (∪)).
    - apply Forall_app. split.
      + eapply Forall_impl; [exact Hall|]. intros k (inst & Hk & Hck).
        unfold built_with. rewrite Hob.
        destruct (decide (ops = k)) as [->|Hne].
        * rewrite lookup_insert_eq. eexists. split; [done|]. by simpl.
        * rewrite lookup_insert_ne by done. eauto.
      + apply Forall_singleton. unfold built_with. rewrite Hob.
        rewrite lookup_insert_eq. eexists. split; [done|]. by simpl. }
  assert (HI0 : I [] tt w).
  { split; [done|]. split; [done|]. split.
    - exists []. rewrite app_nil_r. split; [done|]. constructor.
    - split; [|constructor]. simpl. by rewrite (right_id_L ∅ (∪)). }
  pose proof (for_fold_inv I (λ _ _, False)
                (λ x _, pre_build_group sanitize_name progress x)
                (plan (self w)) Hbody tt w HI0) as Hloop.
  destruct (for_fold _ _ _ _) as [[u|e] s']; [destruct u|done].
  destruct Hloop as (? & ? & (new & ? & ?) & ? & ?).
  by exists s', new.
Qed.

(** ** One pass of the loop of [build], and [build] *)

Lemma build_group_spec sanitize_name progress ops op0 B inst se w :
  head ops = Some op0 →
  builders (proc w) !! op_type op0 = Some B →
  op_builds (self w) !! ops = Some inst →
  let r := resolve_build_step (inst_class inst)
             {| this := inst_attrs inst; sigdict := signals (self w);
                logger := logged (proc w) ++ build_records ops |} in
  let res := build_group sanitize_name progress ops se w in
  builders (proc res.2) = builders (proc w) ∧
  plan (self res.2) = plan (self w) ∧
  calls (proc res.2) = calls (proc w) ++ [CallBuildStep ops r.1] ∧
  op_builds (self res.2) =
    <[ops := {| inst_class := inst_class inst; inst_attrs := this r.2 |}]>
      (op_builds (self w)) ∧
  res.1 = match r.1 with
          | Returned v => Returned (se ++ contribution v)
          | Raised e => Raised e
          end.
Proof.
  intros Hhd Hreg Hinst r res. destruct ops as [|o tl]; simplify_eq/=.
  subst r res.
  unfold build_group, name_scope, builders_getitem, op_builds_getitem,
    invoke_build_step, run_method, record_call, bind, logger_debug, modify,
    gets, getitem0, ret, build_records.
  simpl. rewrite Hreg. simpl. rewrite Hinst. simpl.
  repeat rewrite <- app_assoc. simpl.
  destruct (resolve_build_step _ _) as [[v|e] fr']; simpl; [|done].
  destruct v; simpl; destruct progress; simpl; rewrite ?app_nil_r; done.
Qed.


(** ** Registration *)

Lemma register_effect T B p :
  (register T B p).1 = Returned B ∧
  builders (register T B p).2 = <[T := B]> (builders p) ∧
  calls (register T B p).2 = calls p.
Proof.
  unfold register, bind, when, gets, modify, ret, warnings_warn.
  destruct (cls_inherits_OpBuilder B); simpl;
    destruct (bool_decide _); simpl; done.
Qed.

Lemma register_all_cons T B l p :
  register_all ((T, B) :: l) p = register_all l (register T B p).2.
Proof.
  unfold register_all, for_each. simpl. unfold bind.
  pose proof (register_effect T B p) as (Hr & _).
  destruct (register T B p) as [r p1]. simpl in *. by subst r.
Qed.

Lemma register_all_effect l p :
  (register_all l p).1 = Returned tt ∧
  calls (register_all l p).2 = calls p ∧
  (∀ T, T ∉ map fst l → builders (register_all l p).2 !! T = builders p !! T).
Proof.
  revert p. induction l as [|[T0 B0] l IH]; intros p; [done|].
  rewrite register_all_cons.
  pose proof (register_effect T0 B0 p) as (_ & Hb & Hc).
  destruct (IH (register T0 B0 p).2) as (IH1 & IH2 & IH3).
  split; [done|]. split; [congruence|].
  intros T HT. simpl in HT. apply not_elem_of_cons in HT as [HT0 HT].
  rewrite IH3 by done. rewrite Hb. by apply lookup_insert_ne.
Qed.

Lemma register_all_app l1 l2 p :
  register_all (l1 ++ l2) p = register_all l2 (register_all l1 p).2.
Proof.
  revert p. induction l1 as [|[T B] l1 IH]; intros p; [done|].
  simpl. by rewrite !register_all_cons, IH.
Qed.


(** ** [add_op] and the adapter *)

Lemma add_op_appends w op :
  NengoModel.operators (NengoModel.self (NengoModel.add_op op w).2)
  = NengoModel.operators (NengoModel.self w) ++ [op].
Proof.
  unfold NengoModel.add_op, NengoModel.operators_append,
    NengoModel.run_opmethod, bind, modify, gets, ret.
  simpl. destruct (NengoModel.fail_fast (NengoModel.self w)); [|done].
  simpl. destruct (NengoModel.init_signals op _) as [[[]|e1] fr1]; [|done].
  simpl. destruct (NengoModel.make_step op _ _) as [[v|e2] fr2]; done.
Qed.

Lemma add_op_make_step_raises w op e fr1 fr2 :
  NengoModel.fail_fast (NengoModel.self w) = true →
  NengoModel.init_signals op (fresh_opframe w) = (Returned tt, fr1) →
  NengoModel.make_step op (NengoModel.dt (NengoModel.self w)) fr1
    = (Raised e, fr2) →
  (NengoModel.add_op op w).1 = Raised e ∧
  NengoModel.opcalls (NengoModel.add_op op w).2 =
    NengoModel.opcalls w ++
    [NengoModel.CallInitSignals (NengoModel.op_data op) (Returned tt);
     NengoModel.CallMakeStep (NengoModel.op_data op) (Raised e)].
Proof.
  intros Hff Hinit Hstep.
  unfold NengoModel.add_op, NengoModel.operators_append,
    NengoModel.run_opmethod, bind, modify, gets, ret.
  simpl. rewrite Hff. simpl. unfold fresh_opframe in Hinit. rewrite Hinit.
  simpl. destruct fr1 as [sig1 rng1]. simpl. rewrite Hstep. simpl.
  by rewrite <- app_assoc.
Qed.

(** The three ways a call of [NengoBuilder.build] can go. *)
Lemma NengoBuilder_build_cases {Model Obj Args Value : Type}
    (Builder_build : NengoBuilder.builder_class → Obj → Args → M Model Value)
    (obj : Obj) (args : Args) (model : Model) :
  match Builder_build NengoBuilder.NengoBuilder_cls obj args model with
  | (Returned v, model') =>
      NengoBuilder.build Builder_build obj args model = (Returned v, model')
  | (Raised e, model') =>
      if isinstance_BuildError e
      then NengoBuilder.build Builder_build obj args model
           = Builder_build NengoBuilder.nengo_Builder_cls obj args model'
      else NengoBuilder.build Builder_build obj args model
           = (Raised e, model')
  end.
Proof.
  unfold NengoBuilder.build, try_except_BuildError.
  destruct (Builder_build NengoBuilder.NengoBuilder_cls obj args model)
    as [[v|e] model']; [done|].
  by destruct (isinstance_BuildError e).
Qed.

(** * The claims *)

(** C1: when [pre_build] reaches a group whose representative operator has
    a type with no entry in the registry ([done] being the groups it went
    through before, leaving the world [w1]), it raises [BuildError] with a
    message that names that type, and [op_builds] is as it was when the
    group was reached; in particular what it holds under the key of that
    group is what it held before the call. *)
Theorem pre_build_unregistered_fails :
  ∀ (sanitize_name : string → string) (progress : bool) (w w1 : world)
    (done : list group) (ops : group) (rest : list group) (op0 : Operator),
    plan (self w) = done ++ ops :: rest →
    for_each done (pre_build_group sanitize_name progress) w
      = (Returned tt, w1) →
    head ops = Some op0 →
    builders (proc w) !! op_type op0 = None →
    ∃ w2,
      pre_build sanitize_name progress w =
        (Raised (Exn BuildError
                   ("No registered builder for operators of type " +:+
                    repr_type (op_type op0))), w2) ∧
      op_builds (self w2) = op_builds (self w1) ∧
      op_builds (self w2) !! ops = op_builds (self w) !! ops.
Proof.
  intros sanitize_name progress w w1 done ops rest op0 Hplan Hdone Hhd Hreg.
  pose proof (pre_build_loop_returned _ _ _ _ _ Hdone) as (Hb & Hk & Hall).
  unfold pre_build, bind, gets, for_each. rewrite Hplan, for_fold_app.
  unfold for_each in Hdone. rewrite Hdone. simpl. unfold bind.
  rewrite (pre_build_group_unregistered _ _ _ op0) by congruence.
  eexists. split; [reflexivity|]. simpl. split; [done|].
  apply Hk. intros Hin.
  eapply Forall_forall in Hall as (op0' & Hhd' & [B HB]); [|exact Hin].
  congruence.
Qed.

Lemma pre_build_unregistered_fails_witness :
  builders (proc example_world_partial) !! op_type copy1 = None ∧
  (pre_build (λ s, s) false example_world_partial).1 =
    Raised (Exn BuildError
              "No registered builder for operators of type <class 'nengo.builder.operator.Copy'>").
Proof.
  assert (Hreg : builders (proc example_world_partial) !! op_type copy1
                 = None) by (vm_compute; reflexivity).
  split; [exact Hreg|].
  destruct (for_each [group_A] (pre_build_group (λ s, s) false)
              example_world_partial) as [r w1] eqn:Hdone.
  assert (Hr : Returned tt = r).
  { apply (f_equal fst) in Hdone. vm_compute in Hdone. exact Hdone. }
  destruct Hr.
  destruct (pre_build_unregistered_fails (λ s, s) false example_world_partial
              w1 [group_A] group_B [] copy1 eq_refl Hdone eq_refl Hreg)
    as (w2 & Hrun & _).
  rewrite Hrun. reflexivity.
Defined.





(** C4: when [B1] and then [B2] are registered for the same operator type,
    the second registration returns (it returns [B2], as a decorator
    does), warns that the operator already has a builder, after the
    warning about the base class if [B2] does not derive from [OpBuilder],
    and leaves the registry mapping the type to [B2]; a [pre_build] that
    follows constructs [B2] for a group of that type. *)
Theorem register_twice_second_wins :
  ∀ (T : pytype) (B1 B2 : pyclass) (p : process),
    let r1 := register T B1 p in
    let r2 := register T B2 r1.2 in
    r2.1 = Returned B2 ∧
    warned r2.2 =
      warned r1.2 ++
      (if cls_inherits_OpBuilder B2 then []
       else ["Build classes should inherit from OpBuilder"]) ++
      ["Operator '" +:+ repr_type T +:+
       "' already has a builder. Overwriting."] ∧
    builders r2.2 !! T = Some B2 ∧
    ∀ (sanitize_name : string → string) (progress : bool) (b : t)
      (ops : group) (rest : list group) (op0 : Operator),
      plan b = ops :: rest → head ops = Some op0 → op_type op0 = T →
      ∃ r more,
        calls (proc (pre_build sanitize_name progress
                       {| proc := r2.2; self := b |}).2)
        = calls r2.2 ++ CallInit B2 ops r :: more.
Proof.
  intros T B1 B2 p r1 r2.
  assert (H1 : builders r1.2 !! T = Some B1).
  { subst r1. pose proof (register_effect T B1 p) as (_ & -> & _).
    apply lookup_insert_eq. }
  assert (H2 : builders r2.2 !! T = Some B2).
  { subst r2. pose proof (register_effect T B2 r1.2) as (_ & -> & _).
    apply lookup_insert_eq. }
  split; [apply register_effect|]. split; [|split; [exact H2|]].
  - subst r2. unfold register, bind, when, gets, modify, ret, warnings_warn.
    destruct (cls_inherits_OpBuilder B2); simpl;
      rewrite H1, bool_decide_eq_true_2 by eauto; simpl; [done|].
    by rewrite <- app_assoc.
  - intros sanitize_name progress b ops rest op0 Hplan Hhd HT.
    unfold pre_build, bind, gets. simpl. rewrite Hplan.
    unfold for_each. simpl. unfold bind.
    pose proof (pre_build_group_registered sanitize_name progress ops op0 B2
                  {| proc := r2.2; self := b |} Hhd) as Hspec.
    simpl in Hspec. rewrite HT in Hspec.
    destruct (Hspec H2) as (_ & _ & _ & Hc & _). clear Hspec.
    destruct (pre_build_group sanitize_name progress ops _) as [[[]|e] w'];
      simpl in *.
    + destruct (pre_build_loop_calls sanitize_name progress rest w')
        as [more Hmore].
      unfold for_each in Hmore. rewrite Hmore, Hc, <- app_assoc.
      eauto.
    + rewrite Hc. eauto.
Qed.

Lemma register_twice_second_wins_witness :
  ∃ r more,
    calls (proc (pre_build (λ s, s) false
                   {| proc := (register Reset_type ResetBuilder
                                 (register Reset_type LazyBuilder
                                    fresh_process).2).2;
                      self := example_builder |}).2)
    = CallInit ResetBuilder group_A r :: more.
Proof.
  destruct (register_twice_second_wins Reset_type LazyBuilder ResetBuilder
              fresh_process) as (_ & _ & _ & Hpre).
  destruct (Hpre (λ s, s) false example_builder group_A [group_B] reset1)
    as (r & more & Hcalls); [reflexivity..|].
  exists r, more. exact Hcalls.
Defined.

(** C5: on a model with [fail_fast] set, [add_op] of an operator whose
    [make_step] raises, once [init_signals] has prepared the temporary
    signals, raises that exception, [make_step] being the last call made;
    and [add_op] of an operator whose [make_step] always raises never
    returns.  On a model with [fail_fast] unset, [add_op] returns, has
    appended the operator and has called no method of it. *)
Theorem add_op_fail_fast :
  ∀ (w : NengoModel.world) (op : NengoModel.operator),
    (NengoModel.fail_fast (NengoModel.self w) = true →
     ∀ e fr1 fr2,
       NengoModel.init_signals op (fresh_opframe w) = (Returned tt, fr1) →
       NengoModel.make_step op (NengoModel.dt (NengoModel.self w)) fr1
         = (Raised e, fr2) →
       (NengoModel.add_op op w).1 = Raised e ∧
       NengoModel.opcalls (NengoModel.add_op op w).2 =
         NengoModel.opcalls w ++
         [NengoModel.CallInitSignals (NengoModel.op_data op) (Returned tt);
          NengoModel.CallMakeStep (NengoModel.op_data op) (Raised e)]) ∧
    (NengoModel.fail_fast (NengoModel.self w) = true →
     (∀ dt fr, ∃ e fr', NengoModel.make_step op dt fr = (Raised e, fr')) →
     ∃ e, (NengoModel.add_op op w).1 = Raised e) ∧
    (NengoModel.fail_fast (NengoModel.self w) = false →
     (NengoModel.add_op op w).1 = Returned tt ∧
     NengoModel.opcalls (NengoModel.add_op op w).2 = NengoModel.opcalls w ∧
     NengoModel.operators (NengoModel.self (NengoModel.add_op op w).2)
       = NengoModel.operators (NengoModel.self w) ++ [op]).
Proof.
  intros w op. split; [|split].
  - intros Hff e fr1 fr2. by apply add_op_make_step_raises.
  - intros Hff Hraises.
    destruct (NengoModel.init_signals op (fresh_opframe w)) as [[[]|e1] fr1]
      eqn:Hinit.
    + destruct (Hraises (NengoModel.dt (NengoModel.self w)) fr1)
        as (e & fr2 & Hstep).
      exists e. by eapply add_op_make_step_raises.
    + exists e1.
      unfold NengoModel.add_op, NengoModel.operators_append,
        NengoModel.run_opmethod, bind, modify, gets, ret.
      simpl. rewrite Hff. simpl. unfold fresh_opframe in Hinit.
      by rewrite Hinit.
  - intros Hff.
    unfold NengoModel.add_op, NengoModel.operators_append,
      NengoModel.run_opmethod, bind, modify, gets, ret.
    simpl. by rewrite Hff.
Qed.

Lemma add_op_fail_fast_witness :
  (NengoModel.add_op unimplemented_op (example_model true)).1 =
    Raised (Exn (UserError "NotImplementedError" false)
              "subclasses must implement this method.") ∧
  (NengoModel.add_op unimplemented_op (example_model false)).1 = Returned tt.
Proof.
  split.
  - eapply (proj1 (add_op_fail_fast (example_model true) unimplemented_op));
      reflexivity.
  - apply (proj2 (proj2 (add_op_fail_fast (example_model false)
                           unimplemented_op))).
    reflexivity.
Defined.

(** C6: [NengoBuilder.build] first dispatches on [NengoBuilder]; whenever
    that raises an exception of class [BuildError], be it because
    [NengoBuilder.builders] has no entry for the type of the object or
    because the build function found there raised one, the result is that
    of the dispatch on the base [Builder], run on the model as the first
    attempt left it, and the first exception is dropped.  When the first
    attempt returns, its value is the result. *)
Theorem NengoBuilder_build_falls_back :
  ∀ (Model Obj Args Value : Type) (obj : Obj) (args : Args) (model : Model),
    (∀ (Builder_build :
          NengoBuilder.builder_class → Obj → Args → M Model Value)
       (e : exn) (model' : Model),
       Builder_build NengoBuilder.NengoBuilder_cls obj args model
         = (Raised e, model') →
       isinstance_BuildError e = true →
       NengoBuilder.build Builder_build obj args model
       = Builder_build NengoBuilder.nengo_Builder_cls obj args model') ∧
    (∀ (Builder_build :
          NengoBuilder.builder_class → Obj → Args → M Model Value)
       (v : Value) (model' : Model),
       Builder_build NengoBuilder.NengoBuilder_cls obj args model
         = (Returned v, model') →
       NengoBuilder.build Builder_build obj args model
       = (Returned v, model')) ∧
    (∀ (type_of : Obj → pytype)
       (registry : NengoBuilder.builder_class →
                   gmap pytype (Obj → Args → M Model Value)),
       registry NengoBuilder.NengoBuilder_cls !! type_of obj = None →
       NengoBuilder.build (NengoBuilder.lookup_build type_of registry)
         obj args model
       = NengoBuilder.lookup_build type_of registry
           NengoBuilder.nengo_Builder_cls obj args model) ∧
    (∀ (type_of : Obj → pytype)
       (registry : NengoBuilder.builder_class →
                   gmap pytype (Obj → Args → M Model Value))
       (build_function : Obj → Args → M Model Value)
       (e : exn) (model' : Model),
       registry NengoBuilder.NengoBuilder_cls !! type_of obj
         = Some build_function →
       build_function obj args model = (Raised e, model') →
       isinstance_BuildError e = true →
       NengoBuilder.build (NengoBuilder.lookup_build type_of registry)
         obj args model
       = NengoBuilder.lookup_build type_of registry
           NengoBuilder.nengo_Builder_cls obj args model').
Proof.
  intros Model Obj Args Value obj args model.
  repeat split.
  - intros Builder_build e model' Hrun He.
    pose proof (NengoBuilder_build_cases Builder_build obj args model) as H.
    by rewrite Hrun, He in H.
  - intros Builder_build v model' Hrun.
    pose proof (NengoBuilder_build_cases Builder_build obj args model) as H.
    by rewrite Hrun in H.
  - intros type_of registry Hmiss.
    pose proof (NengoBuilder_build_cases
                  (NengoBuilder.lookup_build type_of registry) obj args model)
      as H.
    unfold NengoBuilder.lookup_build at 1 in H. by rewrite Hmiss in H.
  - intros type_of registry build_function e model' Hfound Hrun He.
    pose proof (NengoBuilder_build_cases
                  (NengoBuilder.lookup_build type_of registry) obj args model)
      as H.
    unfold NengoBuilder.lookup_build at 1 in H.
    by rewrite Hfound, Hrun, He in H.
Qed.

Lemma NengoBuilder_build_falls_back_witness :
  NengoBuilder.build (NengoBuilder.lookup_build op_type example_dispatch)
    reset1 tt [] = (Returned PyNone, ["reset built"]) ∧
  NengoBuilder.build (NengoBuilder.lookup_build op_type example_dispatch)
    copy1 tt [] = (Returned PyNone, ["override began"; "copy built"]).
Proof.
  split.
  - rewrite (proj1 (proj2 (proj2 (NengoBuilder_build_falls_back
               (list string) Operator unit pyvalue reset1 tt [])))
               op_type example_dispatch);
      vm_compute; reflexivity.
  - rewrite (proj2 (proj2 (proj2 (NengoBuilder_build_falls_back
               (list string) Operator unit pyvalue copy1 tt [])))
               op_type example_dispatch
               (λ _ _, modify (λ m, m ++ ["override began"]) ;;;
                       raise (Exn BuildError "override gave up"))
               (Exn BuildError "override gave up") ["override began"]);
      vm_compute; reflexivity.
Defined.

(** C7: on an instance of a class that derives from [OpBuilder] and does
    not override [build_step], calling [build_step] raises [BuildError],
    leaving the instance, the signals and the log as they were; the call
    the orchestrator makes of it raises the same exception. *)
Theorem build_step_not_overridden_raises :
  ∀ (inst : instance) (ops : group) (w : world),
    cls_inherits_OpBuilder (inst_class inst) = true →
    cls_build_step (inst_class inst) = None →
    let e := Exn BuildError
               "OpBuilders must implement a `build_step` function" in
    isinstance_BuildError e = true ∧
    (∀ fr : frame,
       resolve_build_step (inst_class inst) fr = (Raised e, fr)) ∧
    (invoke_build_step ops inst w).1 = Raised e.
Proof.
  intros inst ops w Hsub Hnone e.
  assert (Hres : ∀ fr,
            resolve_build_step (inst_class inst) fr = (Raised e, fr)).
  { intros fr. unfold resolve_build_step. rewrite Hnone, Hsub. reflexivity. }
  split; [reflexivity | split; [exact Hres |]].
  unfold invoke_build_step, run_method, bind.
  rewrite Hres. reflexivity.
Qed.

Lemma build_step_not_overridden_raises_witness :
  (invoke_build_step group_A {| inst_class := LazyBuilder; inst_attrs := ∅ |}
     example_world).1
  = Raised (Exn BuildError "OpBuilders must implement a `build_step` function").
Proof.
  apply (build_step_not_overridden_raises
           {| inst_class := LazyBuilder; inst_attrs := ∅ |}); reflexivity.
Defined.

(** C8: the base [OpBuilder.mergeable(x, y)] is false for every pair of
    operators, and so when [x] is [y]. *)
Theorem mergeable_base_false :
  (∀ x y : Operator, OpBuilder.mergeable x y = false) ∧
  (∀ x : Operator, OpBuilder.mergeable x x = false).
Proof. split; intros; reflexivity. Qed.

(** C9: [add_op] appends the operator before it checks anything: whatever
    the outcome, the operator is the last of [model.operators] afterwards;
    so when [fail_fast] is set and [make_step] raises, [add_op] raises and
    the operator has been added all the same. *)
Theorem add_op_appends_before_check :
  ∀ (w : NengoModel.world) (op : NengoModel.operator),
    NengoModel.operators (NengoModel.self (NengoModel.add_op op w).2)
      = NengoModel.operators (NengoModel.self w) ++ [op] ∧
    (NengoModel.fail_fast (NengoModel.self w) = true →
     ∀ e fr1 fr2,
       NengoModel.init_signals op (fresh_opframe w) = (Returned tt, fr1) →
       NengoModel.make_step op (NengoModel.dt (NengoModel.self w)) fr1
         = (Raised e, fr2) →
       (NengoModel.add_op op w).1 = Raised e ∧
       NengoModel.operators (NengoModel.self (NengoModel.add_op op w).2)
         = NengoModel.operators (NengoModel.self w) ++ [op]).
Proof.
  intros w op. split; [apply add_op_appends|].
  intros Hff e fr1 fr2 Hinit Hstep. split; [|apply add_op_appends].
  by eapply add_op_make_step_raises.
Qed.

Lemma add_op_appends_before_check_witness :
  (NengoModel.add_op unimplemented_op (example_model true)).1 =
    Raised (Exn (UserError "NotImplementedError" false)
              "subclasses must implement this method.") ∧
  NengoModel.operators
    (NengoModel.self
       (NengoModel.add_op unimplemented_op (example_model true)).2)
  = [unimplemented_op].
Proof.
  eapply (proj2 (add_op_appends_before_check (example_model true)
                   unimplemented_op)); reflexivity.
Defined.

(** C10: the base constructor returns, sets the attribute [config] to the
    configuration and no other attribute, and leaves the signal mapping as
    it was; so [OpBuilder(ops, signals, config)], as the orchestrator
    evaluates it, yields an instance whose only attribute is [config], the
    signals of the orchestrator being unchanged. *)
Theorem OpBuilder_init_frame :
  ∀ (class_name : string) (ops : group) (cfg : BuildConfig)
    (a : attrs) (sigs : SignalDict) (log : list log_record) (w : world),
    let r := OpBuilder.init class_name ops cfg
               {| this := a; sigdict := sigs; logger := log |} in
    let res := instantiate OpBuilder_cls ops w in
    r.1 = Returned tt ∧
    this r.2 = <["config" := PyConfig cfg]> a ∧
    sigdict r.2 = sigs ∧
    res.1 = Returned {| inst_class := OpBuilder_cls;
                        inst_attrs :=
                          {["config" := PyConfig (config (self w))]} |} ∧
    signals (self res.2) = signals (self w).
Proof.
  intros class_name ops cfg a sigs log w r res.
  repeat split.
Qed.

(** ** What one pass leaves behind *)

(** The rest of the state after a pass of the loop of [pre_build] on a
    registered group: the scope was opened before the constructor ran, the
    signals and the log are as the constructor left them, and the progress
    bar moved only if the constructor returned. *)
Lemma pre_build_group_registered_state sanitize_name progress ops op0 B w :
  head ops = Some op0 →
  builders (proc w) !! op_type op0 = Some B →
  let r := resolve_init B ops (config (self w))
             {| this := ∅; sigdict := signals (self w);
                logger := logged (proc w) ++ pre_build_records ops |} in
  let res := pre_build_group sanitize_name progress ops w in
  graph (self res.2) = graph (self w) ++ [sanitize_name (cls_name B)] ∧
  signals (self res.2) = sigdict r.2 ∧
  logged (proc res.2) = logger r.2 ∧
  warned (proc res.2) = warned (proc w) ∧
  progress_steps (proc res.2) =
    match r.1 with
    | Returned _ =>
        if progress then S (progress_steps (proc w))
        else progress_steps (proc w)
    | Raised _ => progress_steps (proc w)
    end.
Proof.
  intros Hhd Hreg r res. destruct ops as [|o tl]; simplify_eq/=.
  subst r res.
  unfold pre_build_group, name_scope, builders_getitem, instantiate, run_method,
    record_call, bind, logger_debug, modify, gets, getitem0, ret,
    pre_build_records.
  simpl. repeat (rewrite Hreg; simpl).
  repeat rewrite <- app_assoc. simpl.
  destruct (resolve_init B _ _ _) as [[u|e] fr']; simpl.
  - destruct progress; simpl; done.
  - done.
Qed.

(** The three ways a pass of the loop of [build] fails before it calls
    [build_step]. *)
Lemma build_group_empty sanitize_name progress se w :
  build_group sanitize_name progress [] se w =
    (Raised (Exn IndexError "tuple index out of range"),
     on_proc (λ p, set_logged (logged p ++ build_records []) p) w).
Proof.
  unfold build_group, name_scope, bind, logger_debug, modify, gets, getitem0,
    ret, raise.
  simpl. f_equal.
  unfold on_proc, set_logged; simpl. repeat rewrite <- app_assoc. reflexivity.
Qed.

Lemma build_group_unregistered sanitize_name progress ops op0 se w :
  head ops = Some op0 →
  builders (proc w) !! op_type op0 = None →
  build_group sanitize_name progress ops se w =
    (Raised (Exn KeyError (repr_type (op_type op0))),
     on_proc (λ p, set_logged (logged p ++ build_records ops) p) w).
Proof.
  intros Hhd Hreg. destruct ops as [|o tl]; simplify_eq/=.
  unfold build_group, name_scope, builders_getitem, bind, logger_debug,
    modify, gets, getitem0, ret.
  simpl. rewrite Hreg. unfold raise. f_equal.
  unfold on_proc, set_logged; simpl. repeat rewrite <- app_assoc. reflexivity.
Qed.

Lemma build_group_no_builder sanitize_name progress ops op0 B se w :
  head ops = Some op0 →
  builders (proc w) !! op_type op0 = Some B →
  op_builds (self w) !! ops = None →
  build_group sanitize_name progress ops se w =
    (Raised (Exn KeyError (repr_group ops)),
     on_self (set_graph (λ g, g ++ [sanitize_name (cls_name B)]))
       (on_proc (λ p, set_logged (logged p ++ build_records ops) p) w)).
Proof.
  intros Hhd Hreg Hnone. destruct ops as [|o tl]; simplify_eq/=.
  unfold build_group, name_scope, builders_getitem, op_builds_getitem, bind,
    logger_debug, modify, gets, getitem0, ret.
  simpl. rewrite Hreg. simpl. rewrite Hnone. unfold raise. f_equal.
  unfold on_self, on_proc, set_logged, set_graph; simpl.
  repeat rewrite <- app_assoc. reflexivity.
Qed.

(** The rest of the state after a pass of the loop of [build] that got to
    call [build_step]. *)
Lemma build_group_state sanitize_name progress ops op0 B inst se w :
  head ops = Some op0 →
  builders (proc w) !! op_type op0 = Some B →
  op_builds (self w) !! ops = Some inst →
  let r := resolve_build_step (inst_class inst)
             {| this := inst_attrs inst; sigdict := signals (self w);
                logger := logged (proc w) ++ build_records ops |} in
  let res := build_group sanitize_name progress ops se w in
  config (self res.2) = config (self w) ∧
  graph (self res.2) = graph (self w) ++ [sanitize_name (cls_name B)] ∧
  signals (self res.2) = sigdict r.2 ∧
  logged (proc res.2) = logger r.2 ∧
  warned (proc res.2) = warned (proc w) ∧
  progress_steps (proc res.2) =
    match r.1 with
    | Returned _ =>
        if progress then S (progress_steps (proc w))
        else progress_steps (proc w)
    | Raised _ => progress_steps (proc w)
    end.
Proof.
  intros Hhd Hreg Hinst r res. destruct ops as [|o tl]; simplify_eq/=.
  subst r res.
  unfold build_group, name_scope, builders_getitem, op_builds_getitem,
    invoke_build_step, run_method, record_call, bind, logger_debug, modify,
    gets, getitem0, ret, build_records.
  simpl. rewrite Hreg. simpl. rewrite Hinst. simpl.
  repeat rewrite <- app_assoc. simpl.
  destruct (resolve_build_step _ _) as [[v|e] fr']; simpl; [|done].
  destruct v; simpl; destruct progress; simpl; done.
Qed.

(** Whatever a pass of the loop of [build] does, it keeps the registry, the
    plan, the configuration, the keys of [op_builds] and the class of every
    stored instance, and only adds calls of [build_step] on its own group
    to the history. *)
Lemma build_group_effect sanitize_name progress ops se w :
  let res := build_group sanitize_name progress ops se w in
  builders (proc res.2) = builders (proc w) ∧
  plan (self res.2) = plan (self w) ∧
  config (self res.2) = config (self w) ∧
  dom (op_builds (self res.2)) = dom (op_builds (self w)) ∧
  (∀ k inst, op_builds (self w) !! k = Some inst →
     ∃ inst', op_builds (self res.2) !! k = Some inst' ∧
              inst_class inst' = inst_class inst) ∧
  (∃ more, calls (proc res.2) = calls (proc w) ++ more ∧
           Forall (λ c, ∃ r, c = CallBuildStep ops r) more).
Proof.
  intros res. subst res.
  destruct (head ops) as [op0|] eqn:Hhd.
  - destruct (builders (proc w) !! op_type op0) as [B|] eqn:Hreg.
    + destruct (op_builds (self w) !! ops) as [inst|] eqn:Hinst.
      * pose proof (build_group_spec sanitize_name progress ops op0 B inst se w
                      Hhd Hreg Hinst) as (Hb & Hp & Hc & Hob & _).
        pose proof (build_group_state sanitize_name progress ops op0 B inst se
                      w Hhd Hreg Hinst) as (Hcfg & _).
        simpl in *. split; [done|]. split; [done|]. split; [done|].
        split; [|split].
        -- rewrite Hob, dom_insert_L.
           assert (ops ∈ dom (op_builds (self w))) by (apply elem_of_dom; eauto).
           apply set_eq. intros k. rewrite elem_of_union, elem_of_singleton.
           split; [intros [->|?]; done | by right].
        -- intros k i Hk. rewrite Hob.
           destruct (decide (ops = k)) as [->|Hne].
           ++ rewrite lookup_insert_eq. eexists. split; [done|].
              simpl. congruence.
           ++ rewrite lookup_insert_ne by done. eauto.
        -- eexists. split; [exact Hc|]. apply Forall_singleton. eauto.
      * rewrite (build_group_no_builder _ _ _ op0 B) by done. simpl.
        repeat split; try done; [eauto|].
        exists []. by rewrite app_nil_r.
    + rewrite (build_group_unregistered _ _ _ op0) by done. simpl.
      repeat split; try done; [eauto|].
      exists []. by rewrite app_nil_r.
  - destruct ops; [|done]. rewrite build_group_empty. simpl.
    repeat split; try done; [eauto|].
    exists []. by rewrite app_nil_r.
Qed.

(** ** What the loops leave behind, however they end *)

Lemma elem_of_middle {A} (x : A) (l1 l2 : list A) : x ∈ l1 ++ x :: l2.
Proof. apply elem_of_app. right. apply elem_of_cons. by left. Qed.

Lemma pre_build_loop_frame sanitize_name progress l w :
  let res := for_each l (pre_build_group sanitize_name progress) w in
  builders (proc res.2) = builders (proc w) ∧
  plan (self res.2) = plan (self w) ∧
  config (self res.2) = config (self w) ∧
  (∀ k, k ∉ l → op_builds (self res.2) !! k = op_builds (self w) !! k) ∧
  (∃ more, calls (proc res.2) = calls (proc w) ++ more).
Proof.
  intros res. subst res. unfold for_each.
  pose (F := λ s : world,
          builders (proc s) = builders (proc w) ∧
          plan (self s) = plan (self w) ∧
          config (self s) = config (self w) ∧
          (∀ k, k ∉ l → op_builds (self s) !! k = op_builds (self w) !! k) ∧
          (∃ more, calls (proc s) = calls (proc w) ++ more)).
  assert (Hbody : ∀ done x rest (acc : unit) s, l = done ++ x :: rest →
            F s →
            match pre_build_group sanitize_name progress x s with
            | (Returned acc', s') => F s'
            | (Raised e, s') => F s'
            end).
  { intros done x rest [] s Hl (Hb & Hp & Hc & Hk & [more Hm]).
    pose proof (pre_build_group_effect sanitize_name progress x s)
      as (Hb' & Hp' & Hc' & [more' Hm'] & Hk' & _).
    assert (F (pre_build_group sanitize_name progress x s).2) as HF.
    { split; [congruence|]. split; [congruence|]. split; [congruence|]. split.
      - intros k Hin. rewrite Hk'; [by apply Hk|].
        intros ->. apply Hin. rewrite Hl. apply elem_of_middle.
      - exists (more ++ more'). by rewrite Hm', Hm, <- app_assoc. }
    by destruct (pre_build_group sanitize_name progress x s) as [[u|e] s']. }
  assert (HF0 : F w).
  { repeat split; try done. exists []. by rewrite app_nil_r. }
  pose proof (for_fold_inv (λ _ _ s, F s) (λ _ s, F s)
                (λ x _, pre_build_group sanitize_name progress x) l
                Hbody tt w HF0) as Hloop.
  by destruct (for_fold _ _ _ _) as [[u|e] s'].
Qed.

Lemma build_loop_frame sanitize_name progress l se w :
  let res := for_fold l (build_group sanitize_name progress) se w in
  builders (proc res.2) = builders (proc w) ∧
  plan (self res.2) = plan (self w) ∧
  config (self res.2) = config (self w) ∧
  dom (op_builds (self res.2)) = dom (op_builds (self w)) ∧
  (∀ k inst, op_builds (self w) !! k = Some inst →
     ∃ inst', op_builds (self res.2) !! k = Some inst' ∧
              inst_class inst' = inst_class inst) ∧
  (∃ more, calls (proc res.2) = calls (proc w) ++ more ∧
           Forall (λ c, ∃ ops r, ops ∈ l ∧ c = CallBuildStep ops r) more).
Proof.
  intros res. subst res.
  pose (F := λ s : world,
          builders (proc s) = builders (proc w) ∧
          plan (self s) = plan (self w) ∧
          config (self s) = config (self w) ∧
          dom (op_builds (self s)) = dom (op_builds (self w)) ∧
          (∀ k inst, op_builds (self w) !! k = Some inst →
             ∃ inst', op_builds (self s) !! k = Some inst' ∧
                      inst_class inst' = inst_class inst) ∧
          (∃ more, calls (proc s) = calls (proc w) ++ more ∧
             Forall (λ c, ∃ ops r, ops ∈ l ∧ c = CallBuildStep ops r) more)).
  assert (Hbody : ∀ done x rest acc s, l = done ++ x :: rest →
            F s →
            match build_group sanitize_name progress x acc s with
            | (Returned acc', s') => F s'
            | (Raised e, s') => F s'
            end).
  { intros done x rest acc s Hl (Hb & Hp & Hc & Hd & Hk & more & Hm & Hall).
    pose proof (build_group_effect sanitize_name progress x acc s)
      as (Hb' & Hp' & Hc' & Hd' & Hk' & more' & Hm' & Hall').
    assert (F (build_group sanitize_name progress x acc s).2) as HF.
    { split; [congruence|]. split; [congruence|]. split; [congruence|].
      split; [congruence|]. split.
      - intros k inst Hin. destruct (Hk _ _ Hin) as (i1 & Hi1 & Hc1).
        destruct (Hk' _ _ Hi1) as (i2 & Hi2 & Hc2).
        exists i2. split; [done|]. congruence.
      - exists (more ++ more'). split; [by rewrite Hm', Hm, <- app_assoc|].
        apply Forall_app. split; [done|].
        eapply Forall_impl; [exact Hall'|]. intros c [r ->].
        exists x, r. split; [|done]. rewrite Hl. apply elem_of_middle. }
    by destruct (build_group sanitize_name progress x acc s) as [[u|e] s']. }
  assert (HF0 : F w).
  { repeat split; try done; [eauto|]. exists []. by rewrite app_nil_r. }
  pose proof (for_fold_inv (λ _ _ s, F s) (λ _ s, F s)
                (build_group sanitize_name progress) l
                Hbody se w HF0) as Hloop.
  by destruct (for_fold _ _ _ _) as [[u|e] s'].
Qed.

(** * Further properties of the orchestrator *)

(** X1: when [pre_build] reaches an empty group, evaluating [ops[0]]
    raises [IndexError]; no constructor is called for it and [op_builds]
    is as it was when the group was reached. *)
Theorem pre_build_empty_group_raises :
  ∀ (sanitize_name : string → string) (progress : bool) (w w1 : world)
    (done rest : list group),
    plan (self w) = done ++ [] :: rest →
    for_each done (pre_build_group sanitize_name progress) w
      = (Returned tt, w1) →
    ∃ w2,
      pre_build sanitize_name progress w =
        (Raised (Exn IndexError "tuple index out of range"), w2) ∧
      op_builds (self w2) = op_builds (self w1) ∧
      calls (proc w2) = calls (proc w1) ∧
      graph (self w2) = graph (self w1).
Proof.
  intros sanitize_name progress w w1 done rest Hplan Hdone.
  unfold pre_build, bind, gets, for_each. rewrite Hplan, for_fold_app.
  unfold for_each in Hdone. rewrite Hdone. simpl. unfold bind.
  rewrite pre_build_group_empty. eexists. split; [reflexivity|]. done.
Qed.

Lemma pre_build_empty_group_raises_witness :
  (pre_build (λ s, s) false example_world_empty_group).1 =
    Raised (Exn IndexError "tuple index out of range").
Proof.
  destruct (pre_build_empty_group_raises (λ s, s) false
              example_world_empty_group example_world_empty_group [] []
              eq_refl eq_refl) as (w2 & Hrun & _).
  rewrite Hrun. reflexivity.
Defined.

(** X2: [pre_build] is not atomic.  When the constructor of a group
    raises, [pre_build] raises the same exception; the instances of the
    groups before it stay in [op_builds], none is stored for the failing
    group, and the signals are as the failing constructor left them. *)
Theorem pre_build_constructor_raises :
  ∀ (sanitize_name : string → string) (progress : bool) (w w1 : world)
    (done : list group) (ops : group) (rest : list group)
    (op0 : Operator) (B : pyclass) (e : exn) (fr' : frame),
    plan (self w) = done ++ ops :: rest →
    for_each done (pre_build_group sanitize_name progress) w
      = (Returned tt, w1) →
    head ops = Some op0 →
    builders (proc w) !! op_type op0 = Some B →
    resolve_init B ops (config (self w))
      {| this := ∅; sigdict := signals (self w1);
         logger := logged (proc w1) ++ pre_build_records ops |}
      = (Raised e, fr') →
    ∃ w2,
      pre_build sanitize_name progress w = (Raised e, w2) ∧
      op_builds (self w2) = op_builds (self w1) ∧
      signals (self w2) = sigdict fr' ∧
      calls (proc w2) = calls (proc w1) ++ [CallInit B ops (Raised e)].
Proof.
  intros sanitize_name progress w w1 done ops rest op0 B e fr'
    Hplan Hdone Hhd Hreg Hinit.
  pose proof (pre_build_loop_frame sanitize_name progress done w)
    as (Hb & _ & Hc & _).
  rewrite Hdone in Hb, Hc. simpl in Hb, Hc.
  rewrite <- Hb in Hreg. rewrite <- Hc in Hinit.
  pose proof (pre_build_group_registered sanitize_name progress ops op0 B w1
                Hhd Hreg) as (_ & _ & _ & Hcalls & Hres).
  pose proof (pre_build_group_registered_state sanitize_name progress ops op0
                B w1 Hhd Hreg) as (_ & Hsig & _).
  simpl in *. rewrite Hinit in *. simpl in *. destruct Hres as [Hr Hob].
  unfold pre_build, bind, gets, for_each. rewrite Hplan, for_fold_app.
  unfold for_each in Hdone. rewrite Hdone. simpl. unfold bind.
  destruct (pre_build_group sanitize_name progress ops w1) as [r w2].
  simpl in *. subst r. by exists w2.
Qed.

Lemma pre_build_constructor_raises_witness :
  ∃ w2,
    pre_build (λ s, s) false example_world_failing =
      (Raised (Exn (UserError "ValueError" false) "shapes do not match"), w2) ∧
    signals (self w2) !! 9%positive = Some 9%positive.
Proof.
  assert (Hreg : builders (proc example_world_failing) !! op_type copy1
                 = Some FailingBuilder) by (vm_compute; reflexivity).
  destruct (for_each [group_A] (pre_build_group (λ s, s) false)
              example_world_failing) as [r w1] eqn:Hdone.
  assert (Hr : Returned tt = r).
  { apply (f_equal fst) in Hdone. vm_compute in Hdone. exact Hdone. }
  destruct Hr.
  destruct (pre_build_constructor_raises (λ s, s) false example_world_failing
              w1 [group_A] group_B [] copy1 FailingBuilder _ _
              eq_refl Hdone eq_refl Hreg eq_refl)
    as (w2 & Hrun & _ & Hsig & _).
  exists w2. split; [exact Hrun|]. rewrite Hsig. apply lookup_insert_eq.
Defined.

(** X3: however [pre_build] ends, it leaves the registry, the plan and the
    configuration as they were, changes [op_builds] only under groups of
    the plan, and only adds to the call history. *)
Theorem pre_build_frame :
  ∀ (sanitize_name : string → string) (progress : bool) (w : world),
    let res := pre_build sanitize_name progress w in
    builders (proc res.2) = builders (proc w) ∧
    plan (self res.2) = plan (self w) ∧
    config (self res.2) = config (self w) ∧
    (∀ k, k ∉ plan (self w) →
          op_builds (self res.2) !! k = op_builds (self w) !! k) ∧
    (∃ more, calls (proc res.2) = calls (proc w) ++ more).
Proof.
  intros sanitize_name progress w res. subst res.
  unfold pre_build, bind, gets.
  apply (pre_build_loop_frame sanitize_name progress (plan (self w)) w).
Qed.

(** X4: a [pre_build] that returns has opened one name scope per group, in
    plan order, each named after the class registered for the group, has
    stepped the progress bar once per group if a bar was given, and has
    emitted no warning. *)
Theorem pre_build_scopes_and_progress :
  ∀ (sanitize_name : string → string) (progress : bool) (w w1 : world),
    pre_build sanitize_name progress w = (Returned tt, w1) →
    (∃ names,
       graph (self w1) = graph (self w) ++ names ∧
       Forall2 (scope_named sanitize_name (builders (proc w)))
         (plan (self w)) names) ∧
    progress_steps (proc w1) =
      progress_steps (proc w) +
      (if progress then length (plan (self w)) else 0) ∧
    warned (proc w1) = warned (proc w).
Proof.
  intros sanitize_name progress w w1 Hrun.
  unfold pre_build, bind, gets, for_each in Hrun. simpl in Hrun.
  pose (I := λ (done : list group) (_ : unit) (s : world),
          builders (proc s) = builders (proc w) ∧
          (∃ names,
             graph (self s) = graph (self w) ++ names ∧
             Forall2 (scope_named sanitize_name (builders (proc w)))
               done names) ∧
          progress_steps (proc s) =
            progress_steps (proc w) + (if progress then length done else 0) ∧
          warned (proc s) = warned (proc w)).
  assert (Hbody : ∀ done x rest acc s,
            plan (self w) = done ++ x :: rest → I done acc s →
            match pre_build_group sanitize_name progress x s with
            | (Returned acc', s') => I (done ++ [x]) acc' s'
            | (Raised e, s') => True
            end).
  { intros done ops rest [] s _ (Hb & (names & Hg & Hnames) & Hsteps & Hw).
    pose proof (pre_build_group_effect sanitize_name progress ops s)
      as (Hb' & _ & _ & _ & _ & Hret).
    destruct (pre_build_group sanitize_name progress ops s) as [[u|e] s']
      eqn:Hpass; [|done].
    simpl in *. destruct (Hret u eq_refl) as (op0 & B & _ & Hhd & HB & _).
    pose proof (pre_build_group_registered sanitize_name progress ops op0 B s
                  Hhd HB) as (_ & _ & _ & _ & Hres).
    pose proof (pre_build_group_registered_state sanitize_name progress ops op0
                  B s Hhd HB) as (Hg' & _ & _ & Hw' & Hsteps').
    rewrite Hpass in *. simpl in *.
    destruct (resolve_init B ops (config (self s)) _).1;
      [|destruct Hres; done].
    split; [congruence|]. split; [|split; [|congruence]].
    - exists (names ++ [sanitize_name (cls_name B)]). split.
      + by rewrite Hg', Hg, <- app_assoc.
      + apply Forall2_app; [done|]. constructor; [|constructor].
        exists B. split; [|done]. unfold class_for. rewrite Hhd. congruence.
    - rewrite Hsteps', Hsteps, length_app. simpl.
      destruct progress; lia. }
  assert (HI0 : I [] tt w).
  { split; [done|]. split; [|split; [|done]].
    - exists []. rewrite app_nil_r. split; [done|constructor].
    - simpl. destruct progress; lia. }
  pose proof (for_fold_inv I (λ _ _, True)
                (λ x _, pre_build_group sanitize_name progress x)
                (plan (self w)) Hbody tt w HI0) as Hloop.
  rewrite Hrun in Hloop. destruct Hloop as (_ & ? & ? & ?). done.
Qed.

Lemma pre_build_scopes_and_progress_witness :
  ∃ w1 names,
    pre_build (λ s, s) true example_world = (Returned tt, w1) ∧
    graph (self w1) = names ∧
    progress_steps (proc w1) = progress_steps (proc example_world) + 2.
Proof.
  destruct (pre_build (λ s, s) true example_world) as [r w1] eqn:Hrun.
  assert (Hr : Returned tt = r).
  { apply (f_equal fst) in Hrun. vm_compute in Hrun. exact Hrun. }
  destruct Hr.
  destruct (pre_build_scopes_and_progress (λ s, s) true example_world w1 Hrun)
    as ((names & Hg & _) & Hsteps & _).
  exists w1, names. split; [reflexivity|]. split; [exact Hg|exact Hsteps].
Defined.

(** X5: after [pre_build] on a new [Builder], [op_builds] has as many
    entries as the plan has distinct groups: one per group when no group
    occurs twice. *)
Theorem pre_build_one_instance_per_distinct_group :
  ∀ (sanitize_name : string → string) (progress : bool) (p0 : process)
    (pl : list group) (g : list string) (sigs : SignalDict)
    (cfg : BuildConfig),
    (∀ ops, ops ∈ pl →
       ∃ B, class_for (builders p0) ops = Some B ∧ init_returns B) →
    ∃ w1,
      pre_build sanitize_name progress
        {| proc := p0; self := Builder.init pl g sigs cfg |}
        = (Returned tt, w1) ∧
      size (op_builds (self w1)) = length (remove_dups pl) ∧
      (NoDup pl → size (op_builds (self w1)) = length pl).
Proof.
  intros sanitize_name progress p0 pl g sigs cfg Hplan.
  destruct (pre_build_effect sanitize_name progress
              {| proc := p0; self := Builder.init pl g sigs cfg |} Hplan)
    as (w1 & new & Hrun & _ & _ & _ & _ & Hdom & _).
  simpl in Hdom. rewrite dom_empty_L, (left_id_L ∅ (∪)) in Hdom.
  exists w1. split; [done|].
  rewrite <- size_dom, Hdom. split.
  - assert (Heq : (list_to_set pl : gset group)
                  = list_to_set (remove_dups pl)).
    { apply set_eq. intros k.
      by rewrite !elem_of_list_to_set, elem_of_remove_dups. }
    rewrite Heq. apply size_list_to_set, NoDup_remove_dups.
  - apply size_list_to_set.
Qed.

Lemma pre_build_one_instance_per_distinct_group_witness :
  ∃ w1,
    pre_build (λ s, s) false
      {| proc := proc example_world;
         self := Builder.init [group_A; group_A; group_B] []
                   ∅ example_config |}
      = (Returned tt, w1) ∧
    size (op_builds (self w1)) = 2.
Proof.
  destruct (pre_build_one_instance_per_distinct_group (λ s, s) false
              (proc example_world) [group_A; group_A; group_B] []
              ∅ example_config) as (w1 & Hrun & Hsize & _).
  - intros ops Hin.
    assert (Hcases : ops = group_A ∨ ops = group_B).
    { repeat (apply elem_of_cons in Hin as [Hin|Hin]; [by auto|]).
      by apply elem_of_nil in Hin. }
    destruct Hcases as [-> | ->].
    + exists ResetBuilder. split; [vm_compute; reflexivity|].
      intros ? ? ?; eexists; reflexivity.
    + exists CopyBuilder. split; [vm_compute; reflexivity|].
      intros ? ? ?; eexists; reflexivity.
  - exists w1. split; [exact Hrun|]. rewrite Hsize.
    vm_compute. reflexivity.
Defined.




(** A pass of the loop of [build] returns only for a group that has a
    registered type and a stored builder. *)
Lemma build_group_returned sanitize_name progress ops se w se' w' :
  build_group sanitize_name progress ops se w = (Returned se', w') →
  ∃ op0 B inst,
    head ops = Some op0 ∧
    builders (proc w) !! op_type op0 = Some B ∧
    op_builds (self w) !! ops = Some inst.
Proof.
  intros Hrun.
  destruct (head ops) as [op0|] eqn:Hhd.
  - destruct (builders (proc w) !! op_type op0) as [B|] eqn:Hreg.
    + destruct (op_builds (self w) !! ops) as [inst|] eqn:Hinst; [eauto 10|].
      by rewrite (build_group_no_builder _ _ _ op0 B) in Hrun.
    + by rewrite (build_group_unregistered _ _ _ op0) in Hrun.
  - destruct ops; [|done]. by rewrite build_group_empty in Hrun.
Qed.

(** X7: [build] before [pre_build].  When [build] reaches a group of a
    registered type with no entry in [op_builds], it raises [KeyError] for
    the group; the scope of the group has been opened by then, but no
    [build_step] is called and neither [op_builds] nor the signals
    change. *)
Theorem build_without_builder_raises :
  ∀ (sanitize_name : string → string) (progress : bool) (w w1 : world)
    (done : list group) (ops : group) (rest : list group)
    (se1 : list pyvalue) (op0 : Operator) (B : pyclass),
    plan (self w) = done ++ ops :: rest →
    for_fold done (build_group sanitize_name progress) [] w
      = (Returned se1, w1) →
    head ops = Some op0 →
    builders (proc w) !! op_type op0 = Some B →
    op_builds (self w) !! ops = None →
    ∃ w2,
      build sanitize_name progress w =
        (Raised (Exn KeyError (repr_group ops)), w2) ∧
      calls (proc w2) = calls (proc w1) ∧
      op_builds (self w2) = op_builds (self w1) ∧
      signals (self w2) = signals (self w1) ∧
      graph (self w2) = graph (self w1) ++ [sanitize_name (cls_name B)].
Proof.
  intros sanitize_name progress w w1 done ops rest se1 op0 B
    Hplan Hdone Hhd Hreg Hnone.
  pose proof (build_loop_frame sanitize_name progress done [] w)
    as (Hb & _ & _ & Hdom & _).
  rewrite Hdone in Hb, Hdom. simpl in Hb, Hdom.
  assert (Hnone1 : op_builds (self w1) !! ops = None).
  { apply not_elem_of_dom. rewrite Hdom. by apply not_elem_of_dom. }
  rewrite <- Hb in Hreg.
  unfold build, bind, gets. rewrite Hplan, for_fold_app, Hdone. simpl.
  unfold bind.
  rewrite (build_group_no_builder _ _ _ op0 B) by done.
  eexists. split; [reflexivity|]. done.
Qed.

Lemma build_without_builder_raises_witness :
  (build (λ s, s) false example_world).1 =
    Raised (Exn KeyError "(Reset{a}, Reset{b})").
Proof.
  destruct (build_without_builder_raises (λ s, s) false example_world
              example_world [] group_A [group_B] [] reset1 ResetBuilder)
    as (w2 & Hrun & _); [reflexivity | reflexivity | reflexivity
                         | vm_compute; reflexivity | reflexivity |].
  rewrite Hrun. reflexivity.
Defined.

(** X8: in [build] the registry is read without a check.  When [build]
    reaches a group whose type is not registered, naming its scope raises
    [KeyError] for the type (not the [BuildError] of [pre_build]); when it
    reaches an empty group, [IndexError].  Nothing but the log has changed
    since the group was reached. *)
Theorem build_scope_lookup_fails :
  ∀ (sanitize_name : string → string) (progress : bool) (w w1 : world)
    (done : list group) (ops : group) (rest : list group)
    (se1 : list pyvalue),
    plan (self w) = done ++ ops :: rest →
    for_fold done (build_group sanitize_name progress) [] w
      = (Returned se1, w1) →
    let unchanged (w2 : world) :=
      calls (proc w2) = calls (proc w1) ∧
      self w2 = self w1 in
    (ops = [] →
     ∃ w2, build sanitize_name progress w =
             (Raised (Exn IndexError "tuple index out of range"), w2) ∧
           unchanged w2) ∧
    (∀ op0, head ops = Some op0 →
            builders (proc w) !! op_type op0 = None →
     ∃ w2, build sanitize_name progress w =
             (Raised (Exn KeyError (repr_type (op_type op0))), w2) ∧
           unchanged w2).
Proof.
  intros sanitize_name progress w w1 done ops rest se1 Hplan Hdone unchanged.
  pose proof (build_loop_frame sanitize_name progress done [] w)
    as (Hb & _).
  rewrite Hdone in Hb. simpl in Hb.
  split.
  - intros ->.
    unfold build, bind, gets. rewrite Hplan, for_fold_app, Hdone. simpl.
    unfold bind. rewrite build_group_empty.
    eexists. split; [reflexivity|]. done.
  - intros op0 Hhd Hreg. rewrite <- Hb in Hreg.
    unfold build, bind, gets. rewrite Hplan, for_fold_app, Hdone. simpl.
    unfold bind. rewrite (build_group_unregistered _ _ _ op0) by done.
    eexists. split; [reflexivity|]. done.
Qed.

Lemma build_scope_lookup_fails_witness :
  (build (λ s, s) false example_world_empty_group).1 =
    Raised (Exn IndexError "tuple index out of range") ∧
  (build (λ s, s) false
     {| proc := fresh_process; self := example_builder |}).1 =
    Raised (Exn KeyError "<class 'nengo.builder.operator.Reset'>").
Proof.
  split.
  - destruct (proj1 (build_scope_lookup_fails (λ s, s) false
                       example_world_empty_group example_world_empty_group
                       [] [] [] [] eq_refl eq_refl) eq_refl)
      as (w2 & Hrun & _).
    rewrite Hrun. reflexivity.
  - destruct (proj2 (build_scope_lookup_fails (λ s, s) false
                       {| proc := fresh_process; self := example_builder |}
                       {| proc := fresh_process; self := example_builder |}
                       [] group_A [group_B] [] eq_refl eq_refl)
                reset1 eq_refl eq_refl)
      as (w2 & Hrun & _).
    rewrite Hrun. reflexivity.
Defined.

(** X9: however [build] ends, it leaves the registry, the plan and the
    configuration as they were, neither adds nor removes an entry of
    [op_builds] nor changes the class of a stored instance, and adds to the
    call history only calls of [build_step] on groups of the plan. *)
Theorem build_frame :
  ∀ (sanitize_name : string → string) (progress : bool) (w : world),
    let res := build sanitize_name progress w in
    builders (proc res.2) = builders (proc w) ∧
    plan (self res.2) = plan (self w) ∧
    config (self res.2) = config (self w) ∧
    dom (op_builds (self res.2)) = dom (op_builds (self w)) ∧
    (∀ k inst, op_builds (self w) !! k = Some inst →
       ∃ inst', op_builds (self res.2) !! k = Some inst' ∧
                inst_class inst' = inst_class inst) ∧
    (∃ more, calls (proc res.2) = calls (proc w) ++ more ∧
       Forall (λ c, ∃ ops r, ops ∈ plan (self w) ∧ c = CallBuildStep ops r)
         more).
Proof.
  intros sanitize_name progress w res. subst res.
  unfold build, bind, gets.
  apply (build_loop_frame sanitize_name progress (plan (self w)) [] w).
Qed.

(** X10: a [build] that returns has opened one name scope per group, in
    plan order, each named after the class the registry holds for the
    group at that time, has stepped the progress bar once per group if a
    bar was given, and has emitted no warning. *)
Theorem build_scopes_and_progress :
  ∀ (sanitize_name : string → string) (progress : bool) (w w1 : world)
    (side_effects : list pyvalue),
    build sanitize_name progress w = (Returned side_effects, w1) →
    (∃ names,
       graph (self w1) = graph (self w) ++ names ∧
       Forall2 (scope_named sanitize_name (builders (proc w)))
         (plan (self w)) names) ∧
    progress_steps (proc w1) =
      progress_steps (proc w) +
      (if progress then length (plan (self w)) else 0) ∧
    warned (proc w1) = warned (proc w).
Proof.
  intros sanitize_name progress w w1 side_effects Hrun.
  unfold build, bind, gets in Hrun. simpl in Hrun.
  pose (I := λ (done : list group) (_ : list pyvalue) (s : world),
          builders (proc s) = builders (proc w) ∧
          (∃ names,
             graph (self s) = graph (self w) ++ names ∧
             Forall2 (scope_named sanitize_name (builders (proc w)))
               done names) ∧
          progress_steps (proc s) =
            progress_steps (proc w) + (if progress then length done else 0) ∧
          warned (proc s) = warned (proc w)).
  assert (Hbody : ∀ done x rest acc s,
            plan (self w) = done ++ x :: rest → I done acc s →
            match build_group sanitize_name progress x acc s with
            | (Returned acc', s') => I (done ++ [x]) acc' s'
            | (Raised e, s') => True
            end).
  { intros done ops rest se s _ (Hb & (names & Hg & Hnames) & Hsteps & Hw).
    destruct (build_group sanitize_name progress ops se s) as [[se'|e] s']
      eqn:Hpass; [|done].
    destruct (build_group_returned _ _ _ _ _ _ _ Hpass)
      as (op0 & B & inst & Hhd & HB & Hinst).
    pose proof (build_group_spec sanitize_name progress ops op0 B inst se s
                  Hhd HB Hinst) as (Hb' & _ & _ & _ & Hres).
    pose proof (build_group_state sanitize_name progress ops op0 B inst se s
                  Hhd HB Hinst) as (_ & Hg' & _ & _ & Hw' & Hsteps').
    rewrite Hpass in *. simpl in *.
    destruct (resolve_build_step (inst_class inst) _).1; [|done].
    split; [congruence|]. split; [|split; [|congruence]].
    - exists (names ++ [sanitize_name (cls_name B)]). split.
      + by rewrite Hg', Hg, <- app_assoc.
      + apply Forall2_app; [done|]. constructor; [|constructor].
        exists B. split; [|done]. unfold class_for. rewrite Hhd. congruence.
    - rewrite Hsteps', Hsteps, length_app. simpl.
      destruct progress; lia. }
  assert (HI0 : I [] [] w).
  { split; [done|]. split; [|split; [|done]].
    - exists []. rewrite app_nil_r. split; [done|constructor].
    - simpl. destruct progress; lia. }
  pose proof (for_fold_inv I (λ _ _, True)
                (build_group sanitize_name progress)
                (plan (self w)) Hbody [] w HI0) as Hloop.
  rewrite Hrun in Hloop. destruct Hloop as (_ & ? & ? & ?). done.
Qed.

Lemma build_scopes_and_progress_witness :
  ∃ w1 w2 se,
    pre_build (λ s, s) true example_world = (Returned tt, w1) ∧
    build (λ s, s) true w1 = (Returned se, w2) ∧
    progress_steps (proc w2) = progress_steps (proc w1) + 2.
Proof.
  destruct (pre_build (λ s, s) true example_world) as [r w1] eqn:Hpre.
  assert (Hr : Returned tt = r).
  { apply (f_equal fst) in Hpre. vm_compute in Hpre. exact Hpre. }
  destruct Hr.
  assert (Hp : length (plan (self w1)) = 2).
  { apply (f_equal (λ x, length (plan (self x.2)))) in Hpre.
    vm_compute in Hpre. symmetry. exact Hpre. }
  destruct (build (λ s, s) true w1) as [r2 w2] eqn:Hrun.
  assert (Hr2 : ∃ se, r2 = Returned se).
  { assert (Hw1 : w1 = (pre_build (λ s, s) true example_world).2)
      by (by rewrite Hpre).
    pose proof (f_equal fst Hrun) as H1. rewrite Hw1 in H1.
    vm_compute in H1. rewrite <- H1. eauto. }
  destruct Hr2 as [se ->].
  destruct (build_scopes_and_progress (λ s, s) true w1 w2 se Hrun)
    as (_ & Hsteps & _).
  exists w1, w2, se. split; [reflexivity|]. split; [exact Hrun|].
  by rewrite Hsteps, Hp.
Defined.

(** ** Registration *)

Lemma register_warned T B p :
  warned (register T B p).2 =
    warned p ++
    (if cls_inherits_OpBuilder B then []
     else ["Build classes should inherit from OpBuilder"]) ++
    (if bool_decide (is_Some (builders p !! T))
     then ["Operator '" +:+ repr_type T +:+
           "' already has a builder. Overwriting."]
     else []).
Proof.
  unfold register, bind, when, gets, modify, ret, warnings_warn.
  destruct (cls_inherits_OpBuilder B); simpl;
    destruct (bool_decide _); simpl; rewrite ?app_nil_r, <- ?app_assoc; done.
Qed.

(** X11: one registration.  [register] returns the class it was given,
    maps the operator type to it whether or not it warned, and leaves the
    other entries of the registry alone.  It warns first if the class does
    not derive from [OpBuilder], then if the type already had a builder,
    and emits nothing else. *)
Theorem register_one :
  ∀ (T : pytype) (B : pyclass) (p : process),
    let res := register T B p in
    res.1 = Returned B ∧
    builders res.2 !! T = Some B ∧
    (∀ T', T' ≠ T → builders res.2 !! T' = builders p !! T') ∧
    warned res.2 =
      warned p ++
      (if cls_inherits_OpBuilder B then []
       else ["Build classes should inherit from OpBuilder"]) ++
      (if bool_decide (is_Some (builders p !! T))
       then ["Operator '" +:+ repr_type T +:+
             "' already has a builder. Overwriting."]
       else []) ∧
    logged res.2 = logged p ∧ calls res.2 = calls p.
Proof.
  intros T B p res. subst res.
  pose proof (register_effect T B p) as (Hr & Hb & Hc).
  split; [done|]. rewrite Hb. split; [apply lookup_insert_eq|].
  split; [intros T' Hne; by apply lookup_insert_ne|].
  split; [apply register_warned|]. split; [|done].
  unfold register, bind, when, gets, modify, ret, warnings_warn.
  destruct (cls_inherits_OpBuilder B); simpl;
    destruct (bool_decide _); simpl; done.
Qed.

(** X12: a sequence of registrations.  It never raises; for an operator
    type registered several times the class of the last registration is
    the one the registry holds; a type that was not registered keeps the
    class it had. *)
Theorem register_all_last_wins :
  ∀ (regs : list (pytype * pyclass)) (p : process),
    (register_all regs p).1 = Returned tt ∧
    (∀ T B l1 l2,
       regs = l1 ++ (T, B) :: l2 → (T ∉ map fst l2) →
       builders (register_all regs p).2 !! T = Some B) ∧
    (∀ T, (T ∉ map fst regs) →
          builders (register_all regs p).2 !! T = builders p !! T).
Proof.
  intros regs p.
  pose proof (register_all_effect regs p) as (Hr & _ & Hk).
  split; [done|]. split; [|done].
  intros T B l1 l2 -> Hl2.
  rewrite register_all_app, register_all_cons.
  pose proof (register_all_effect l2
                (register T B (register_all l1 p).2).2) as (_ & _ & Hk2).
  rewrite Hk2 by done.
  pose proof (register_effect T B (register_all l1 p).2) as (_ & -> & _).
  apply lookup_insert_eq.
Qed.

Lemma register_all_last_wins_witness :
  builders (register_all [(Reset_type, LazyBuilder); (Copy_type, CopyBuilder);
                          (Reset_type, ResetBuilder)] fresh_process).2
    !! Reset_type = Some ResetBuilder.
Proof.
  apply (proj1 (proj2 (register_all_last_wins
                         [(Reset_type, LazyBuilder); (Copy_type, CopyBuilder);
                          (Reset_type, ResetBuilder)] fresh_process))
           Reset_type ResetBuilder
           [(Reset_type, LazyBuilder); (Copy_type, CopyBuilder)] []).
  - reflexivity.
  - apply not_elem_of_nil.
Defined.

(** X13: registering classes that derive from [OpBuilder] for operator
    types that are pairwise distinct and not yet registered emits no
    warning. *)
Theorem register_all_clean :
  ∀ (regs : list (pytype * pyclass)) (p : process),
    NoDup (map fst regs) →
    (∀ T, T ∈ map fst regs → builders p !! T = None) →
    Forall (λ r, cls_inherits_OpBuilder r.2 = true) regs →
    warned (register_all regs p).2 = warned p.
Proof.
  induction regs as [|[T B] regs IH]; intros p Hnd Hfresh Hsub; [done|].
  rewrite register_all_cons.
  simpl in Hnd. apply NoDup_cons in Hnd as [HT Hnd].
  apply Forall_cons in Hsub as [HB Hsub]. simpl in HB.
  pose proof (register_effect T B p) as (_ & Hb & _).
  rewrite IH; [| done | | done].
  - rewrite register_warned, HB.
    rewrite (Hfresh T) by (simpl; apply elem_of_cons; by left).
    rewrite bool_decide_eq_false_2 by (by intros [? ?]).
    by rewrite !app_nil_r.
  - intros T' HT'. rewrite Hb.
    rewrite lookup_insert_ne by (intros ->; done).
    apply Hfresh. simpl. apply elem_of_cons. by right.
Qed.

Lemma register_all_clean_witness :
  warned (register_all example_regs fresh_process).2 = [].
Proof.
  apply (register_all_clean example_regs fresh_process).
  - repeat constructor.
    + intros Hin. apply elem_of_cons in Hin as [Heq|Hin];
        [discriminate Heq | by apply elem_of_nil in Hin].
    + intros Hin. by apply elem_of_nil in Hin.
  - intros T _. apply lookup_empty.
  - repeat constructor.
Defined.

(** ** The last phase *)

Lemma post_build_group_spec sanitize_name cls_build_post progress ops op0 B
    inst w :
  head ops = Some op0 →
  builders (proc (PostBuild.base w)) !! op_type op0 = Some B →
  op_builds (self (PostBuild.base w)) !! ops = Some inst →
  let r := PostBuild.resolve_build_post cls_build_post (inst_class inst) ops
             (post_frame_of w ops inst) in
  let res := PostBuild.post_build_group sanitize_name cls_build_post progress
               ops w in
  res.1 = r.1 ∧
  PostBuild.post_calls res.2 =
    PostBuild.post_calls w ++
    [{| PostBuild.pc_ops := ops; PostBuild.pc_rng_in := PostBuild.rng w;
        PostBuild.pc_rng_out := PostBuild.post_rng r.2;
        PostBuild.pc_result := r.1 |}] ∧
  PostBuild.sess res.2 = PostBuild.post_sess r.2 ∧
  PostBuild.rng res.2 = PostBuild.post_rng r.2 ∧
  signals (self (PostBuild.base res.2)) = PostBuild.post_sigdict r.2 ∧
  op_builds (self (PostBuild.base res.2)) =
    <[ops := {| inst_class := inst_class inst;
                inst_attrs := PostBuild.post_this r.2 |}]>
      (op_builds (self (PostBuild.base w))) ∧
  builders (proc (PostBuild.base res.2)) = builders (proc (PostBuild.base w)) ∧
  plan (self (PostBuild.base res.2)) = plan (self (PostBuild.base w)) ∧
  calls (proc (PostBuild.base res.2)) = calls (proc (PostBuild.base w)) ∧
  graph (self (PostBuild.base res.2)) =
    graph (self (PostBuild.base w)) ++ [sanitize_name (cls_name B)].
Proof.
  intros Hhd Hreg Hinst r res. destruct ops as [|o tl]; simplify_eq/=.
  subst r res.
  unfold PostBuild.post_build_group, PostBuild.lift,
    PostBuild.invoke_build_post, name_scope, builders_getitem,
    op_builds_getitem, bind, logger_debug, modify, gets, getitem0, ret,
    post_frame_of, post_build_records.
  cbn. rewrite Hreg. cbn. rewrite Hinst. cbn.
  repeat rewrite <- app_assoc. cbn.
  destruct (PostBuild.resolve_build_post _ _ _ _) as [[[]|e] fr']; cbn;
    [|done].
  destruct progress; cbn; done.
Qed.

Lemma post_build_group_no_builder sanitize_name cls_build_post progress ops
    op0 B w :
  head ops = Some op0 →
  builders (proc (PostBuild.base w)) !! op_type op0 = Some B →
  op_builds (self (PostBuild.base w)) !! ops = None →
  let res := PostBuild.post_build_group sanitize_name cls_build_post progress
               ops w in
  res.1 = Raised (Exn KeyError (repr_group ops)) ∧
  PostBuild.post_calls res.2 = PostBuild.post_calls w ∧
  PostBuild.sess res.2 = PostBuild.sess w ∧
  PostBuild.rng res.2 = PostBuild.rng w ∧
  signals (self (PostBuild.base res.2)) = signals (self (PostBuild.base w)) ∧
  op_builds (self (PostBuild.base res.2))
    = op_builds (self (PostBuild.base w)).
Proof.
  intros Hhd Hreg Hnone res. destruct ops as [|o tl]; simplify_eq/=.
  subst res.
  unfold PostBuild.post_build_group, PostBuild.lift,
    PostBuild.invoke_build_post, name_scope, builders_getitem,
    op_builds_getitem, bind, logger_debug, modify, gets, getitem0, ret.
  cbn. rewrite Hreg. cbn. rewrite Hnone. cbn. done.
Qed.



(** One call of [post_build] when no stored builder defines [build_post]. *)
Lemma post_build_base_once sanitize_name cls_build_post progress w :
  Forall (has_builder (PostBuild.base w)) (plan (self (PostBuild.base w))) →
  (∀ ops inst, ops ∈ plan (self (PostBuild.base w)) →
     op_builds (self (PostBuild.base w)) !! ops = Some inst →
     cls_inherits_OpBuilder (inst_class inst) = true ∧
     cls_build_post (inst_class inst) = None) →
  ∃ w1,
    PostBuild.post_build sanitize_name cls_build_post progress w
      = (Returned tt, w1) ∧
    builders (proc (PostBuild.base w1))
      = builders (proc (PostBuild.base w)) ∧
    plan (self (PostBuild.base w1)) = plan (self (PostBuild.base w)) ∧
    op_builds (self (PostBuild.base w1))
      = op_builds (self (PostBuild.base w)) ∧
    signals (self (PostBuild.base w1)) = signals (self (PostBuild.base w)) ∧
    PostBuild.sess w1 = PostBuild.sess w ∧
    PostBuild.rng w1 = PostBuild.rng w.
Proof.
  intros Hplan Hbase.
  unfold PostBuild.post_build, bind, gets, for_each. simpl.
  pose (I := λ (_ : list group) (_ : unit) (s : PostBuild.world),
          builders (proc (PostBuild.base s))
            = builders (proc (PostBuild.base w)) ∧
          plan (self (PostBuild.base s)) = plan (self (PostBuild.base w)) ∧
          op_builds (self (PostBuild.base s))
            = op_builds (self (PostBuild.base w)) ∧
          signals (self (PostBuild.base s))
            = signals (self (PostBuild.base w)) ∧
          PostBuild.sess s = PostBuild.sess w ∧
          PostBuild.rng s = PostBuild.rng w).
  assert (Hbody : ∀ done x rest acc s,
            plan (self (PostBuild.base w)) = done ++ x :: rest →
            I done acc s →
            match PostBuild.post_build_group sanitize_name cls_build_post
                    progress x s with
            | (Returned acc', s') => I (done ++ [x]) acc' s'
            | (Raised e, s') => False
            end).
  { intros done ops rest [] s Hl (Hb & Hp & Hob & Hsig & Hsess & Hrng).
    assert (Hin : ops ∈ plan (self (PostBuild.base w))).
    { rewrite Hl. apply elem_of_middle. }
    assert (Hops : has_builder (PostBuild.base w) ops).
    { eapply Forall_forall; [exact Hplan|exact Hin]. }
    destruct Hops as (op0 & Hhd & [B HB] & [inst Hinst]).
    destruct (Hbase ops inst Hin Hinst) as [Hsub Hnone].
    rewrite <- Hb in HB. rewrite <- Hob in Hinst.
    pose proof (post_build_group_spec sanitize_name cls_build_post progress
                  ops op0 B inst s Hhd HB Hinst)
      as (Hres & _ & Hsess' & Hrng' & Hsig' & Hob' & Hb' & Hp' & _).
    destruct (PostBuild.post_build_group sanitize_name cls_build_post progress
                ops s) as [r s'].
    simpl in *.
    unfold PostBuild.resolve_build_post in *. rewrite Hnone, Hsub in *.
    simpl in *. subst r.
    split; [congruence|]. split; [congruence|]. split.
    - rewrite Hob', <- Hob. apply insert_id. rewrite Hinst. by destruct inst.
    - split; [congruence|]. split; congruence. }
  pose proof (for_fold_inv I (λ _ _, False)
                (λ x _, PostBuild.post_build_group sanitize_name
                          cls_build_post progress x)
                (plan (self (PostBuild.base w))) Hbody tt w) as Hloop.
  destruct (for_fold _ _ _ _) as [[[]|e] s'].
  - exists s'. split; [done|]. by apply Hloop.
  - exfalso. by apply Hloop.
Qed.

(** X15: when no stored builder defines [build_post], [post_build] returns
    and changes neither the signals, nor the stored builders, nor the
    session, nor the generator; called again, it does the same. *)
Theorem post_build_base_does_nothing :
  ∀ (sanitize_name : string → string)
    (cls_build_post : pyclass → option (group → M PostBuild.post_frame unit))
    (progress : bool) (w : PostBuild.world),
    Forall (has_builder (PostBuild.base w))
      (plan (self (PostBuild.base w))) →
    (∀ ops inst, ops ∈ plan (self (PostBuild.base w)) →
       op_builds (self (PostBuild.base w)) !! ops = Some inst →
       cls_inherits_OpBuilder (inst_class inst) = true ∧
       cls_build_post (inst_class inst) = None) →
    let unchanged (w' : PostBuild.world) :=
      op_builds (self (PostBuild.base w'))
        = op_builds (self (PostBuild.base w)) ∧
      signals (self (PostBuild.base w'))
        = signals (self (PostBuild.base w)) ∧
      PostBuild.sess w' = PostBuild.sess w ∧
      PostBuild.rng w' = PostBuild.rng w in
    ∃ w1 w2,
      PostBuild.post_build sanitize_name cls_build_post progress w
        = (Returned tt, w1) ∧
      unchanged w1 ∧
      PostBuild.post_build sanitize_name cls_build_post progress w1
        = (Returned tt, w2) ∧
      unchanged w2.
Proof.
  intros sanitize_name cls_build_post progress w Hplan Hbase unchanged.
  destruct (post_build_base_once sanitize_name cls_build_post progress w
              Hplan Hbase)
    as (w1 & Hrun1 & Hb1 & Hp1 & Hob1 & Hsig1 & Hsess1 & Hrng1).
  destruct (post_build_base_once sanitize_name cls_build_post progress w1)
    as (w2 & Hrun2 & _ & _ & Hob2 & Hsig2 & Hsess2 & Hrng2).
  { rewrite Hp1. eapply Forall_impl; [exact Hplan|].
    intros ops (op0 & ? & ? & ?). exists op0. by rewrite Hb1, Hob1. }
  { rewrite Hp1, Hob1. exact Hbase. }
  exists w1, w2. split; [done|]. split; [done|]. split; [done|].
  unfold unchanged. split; [congruence|]. split; [congruence|].
  split; congruence.
Qed.

(** X16: [post_build] before [pre_build].  When the first group of the
    plan, of a registered type, has no entry in [op_builds], [post_build]
    raises [KeyError] for the group without having called any
    [build_post]; session and generator are untouched. *)
Theorem post_build_without_builder_raises :
  ∀ (sanitize_name : string → string)
    (cls_build_post : pyclass → option (group → M PostBuild.post_frame unit))
    (progress : bool) (w : PostBuild.world)
    (ops : group) (rest : list group) (op0 : Operator) (B : pyclass),
    plan (self (PostBuild.base w)) = ops :: rest →
    head ops = Some op0 →
    builders (proc (PostBuild.base w)) !! op_type op0 = Some B →
    op_builds (self (PostBuild.base w)) !! ops = None →
    let res := PostBuild.post_build sanitize_name cls_build_post progress w in
    res.1 = Raised (Exn KeyError (repr_group ops)) ∧
    PostBuild.post_calls res.2 = PostBuild.post_calls w ∧
    PostBuild.sess res.2 = PostBuild.sess w ∧
    PostBuild.rng res.2 = PostBuild.rng w ∧
    signals (self (PostBuild.base res.2))
      = signals (self (PostBuild.base w)).
Proof.
  intros sanitize_name cls_build_post progress w ops rest op0 B
    Hplan Hhd Hreg Hnone res. subst res.
  pose proof (post_build_group_no_builder sanitize_name cls_build_post
                progress ops op0 B w Hhd Hreg Hnone)
    as (Hr & Hpc & Hsess & Hrng & Hsig & _).
  unfold PostBuild.post_build, bind, gets, for_each. simpl.
  rewrite Hplan. simpl. unfold bind.
  destruct (PostBuild.post_build_group sanitize_name cls_build_post progress
              ops w) as [r s'].
  simpl in *. subst r. done.
Qed.

Lemma example_post_world_plan :
  plan (self (PostBuild.base example_post_world)) = [group_A; group_B].
Proof. vm_compute. reflexivity. Defined.

Lemma example_post_world_built :
  Forall (has_builder (PostBuild.base example_post_world))
    (plan (self (PostBuild.base example_post_world))).
Proof.
  rewrite example_post_world_plan. repeat constructor.
  - exists reset1. split; [reflexivity|].
    split; vm_compute; eexists; reflexivity.
  - exists copy1. split; [reflexivity|].
    split; vm_compute; eexists; reflexivity.
Defined.


Lemma post_build_base_does_nothing_witness :
  ∃ w1 w2,
    PostBuild.post_build (λ s, s) (λ _, None) true example_post_world
      = (Returned tt, w1) ∧
    PostBuild.post_build (λ s, s) (λ _, None) true w1 = (Returned tt, w2) ∧
    PostBuild.rng w2 = 42%N.
Proof.
  destruct (post_build_base_does_nothing (λ s, s) (λ _, None) true
              example_post_world example_post_world_built)
    as (w1 & w2 & Hrun1 & _ & Hrun2 & _ & _ & _ & Hrng).
  - intros ops inst Hin Hlook. split; [|reflexivity].
    rewrite example_post_world_plan in Hin.
    apply elem_of_cons in Hin as [-> | Hin];
      [|apply elem_of_cons in Hin as [-> | Hin];
        [|destruct (not_elem_of_nil _ Hin)]];
      vm_compute in Hlook; injection Hlook as <-; reflexivity.
  - exists w1, w2. split; [exact Hrun1|]. split; [exact Hrun2|exact Hrng].
Defined.

Lemma post_build_without_builder_raises_witness :
  (PostBuild.post_build (λ s, s) example_build_post false
     {| PostBuild.base := example_world; PostBuild.sess := ∅;
        PostBuild.rng := 42; PostBuild.post_calls := [] |}).1
  = Raised (Exn KeyError "(Reset{a}, Reset{b})").
Proof.
  apply (post_build_without_builder_raises (λ s, s) example_build_post false
           {| PostBuild.base := example_world; PostBuild.sess := ∅;
              PostBuild.rng := 42; PostBuild.post_calls := [] |}
           group_A [group_B] reset1 ResetBuilder);
    [reflexivity | reflexivity | vm_compute; reflexivity | reflexivity].
Defined.

(** * Further properties of the model and of the adapter *)

(** X17: on a model with [fail_fast] set, when [init_signals] of the
    operator raises, [add_op] raises that exception and [make_step] is
    never called; the operator has been appended all the same. *)
Theorem add_op_init_signals_raises :
  ∀ (w : NengoModel.world) (op : NengoModel.operator) (e : exn)
    (fr1 : NengoModel.opframe),
    NengoModel.fail_fast (NengoModel.self w) = true →
    NengoModel.init_signals op (fresh_opframe w) = (Raised e, fr1) →
    (NengoModel.add_op op w).1 = Raised e ∧
    NengoModel.opcalls (NengoModel.add_op op w).2 =
      NengoModel.opcalls w ++
      [NengoModel.CallInitSignals (NengoModel.op_data op) (Raised e)] ∧
    NengoModel.operators (NengoModel.self (NengoModel.add_op op w).2)
      = NengoModel.operators (NengoModel.self w) ++ [op].
Proof.
  intros w op e fr1 Hff Hinit.
  unfold NengoModel.add_op, NengoModel.operators_append,
    NengoModel.run_opmethod, bind, modify, gets, ret.
  simpl. rewrite Hff. simpl. unfold fresh_opframe in Hinit. rewrite Hinit.
  done.
Qed.

Lemma add_op_init_signals_raises_witness :
  (NengoModel.add_op unprepared_op (example_model true)).1 =
    Raised (Exn (UserError "SignalError" false) "signal is not initialised").
Proof.
  eapply (proj1 (add_op_init_signals_raises (example_model true)
                   unprepared_op _ _ eq_refl eq_refl)).
Defined.

(** X18: on a model with [fail_fast] set, when [init_signals] and then
    [make_step], run on the dictionary [init_signals] prepared, both
    return, [add_op] returns; each was called once, in that order; the
    model keeps its flag and its time step, its operators are the former
    ones followed by the new one, and what the two calls drew from
    [np.random] stays drawn. *)
Theorem add_op_check_passes :
  ∀ (w : NengoModel.world) (op : NengoModel.operator) (v : pyvalue)
    (fr1 fr2 : NengoModel.opframe),
    NengoModel.fail_fast (NengoModel.self w) = true →
    NengoModel.init_signals op (fresh_opframe w) = (Returned tt, fr1) →
    NengoModel.make_step op (NengoModel.dt (NengoModel.self w)) fr1
      = (Returned v, fr2) →
    NengoModel.add_op op w =
      (Returned tt,
       {| NengoModel.self :=
            {| NengoModel.operators :=
                 NengoModel.operators (NengoModel.self w) ++ [op];
               NengoModel.fail_fast := true;
               NengoModel.dt := NengoModel.dt (NengoModel.self w) |};
          NengoModel.rng := NengoModel.np_random fr2;
          NengoModel.opcalls :=
            NengoModel.opcalls w ++
            [NengoModel.CallInitSignals (NengoModel.op_data op) (Returned tt);
             NengoModel.CallMakeStep (NengoModel.op_data op) (Returned v)] |}).
Proof.
  intros w op v fr1 fr2 Hff Hinit Hstep.
  unfold NengoModel.add_op, NengoModel.operators_append,
    NengoModel.run_opmethod, bind, modify, gets, ret.
  simpl. rewrite Hff. simpl. unfold fresh_opframe in Hinit. rewrite Hinit.
  simpl. destruct fr1 as [sig1 rng1]. simpl. rewrite Hstep. simpl.
  by rewrite <- app_assoc.
Qed.

Lemma add_op_check_passes_witness :
  (NengoModel.add_op sound_op (example_model true)).1 = Returned tt ∧
  NengoModel.rng (NengoModel.add_op sound_op (example_model true)).2 = 1%N.
Proof.
  rewrite (add_op_check_passes (example_model true) sound_op _ _ _
             eq_refl eq_refl eq_refl).
  split; reflexivity.
Defined.



(** X20: on a model with [fail_fast] unset, adding operators one after the
    other returns, appends them all in order, and touches nothing else: no
    method of an operator is called and [np.random] is left alone. *)
Theorem add_ops_unchecked :
  ∀ (ops : list NengoModel.operator) (w : NengoModel.world),
    NengoModel.fail_fast (NengoModel.self w) = false →
    for_each ops NengoModel.add_op w =
      (Returned tt,
       {| NengoModel.self :=
            {| NengoModel.operators :=
                 NengoModel.operators (NengoModel.self w) ++ ops;
               NengoModel.fail_fast := false;
               NengoModel.dt := NengoModel.dt (NengoModel.self w) |};
          NengoModel.rng := NengoModel.rng w;
          NengoModel.opcalls := NengoModel.opcalls w |}).
Proof.
  induction ops as [|op ops IH]; intros w Hff.
  - unfold for_each. simpl. unfold ret. rewrite app_nil_r.
    destruct w as [[os ff d] r cs]. simpl in *. by subst ff.
  - unfold for_each in *. simpl. unfold bind.
    unfold NengoModel.add_op at 1, NengoModel.operators_append, bind, modify,
      gets, ret.
    simpl. rewrite Hff. rewrite IH by done. simpl.
    by rewrite <- app_assoc.
Qed.

Lemma add_ops_unchecked_witness :
  NengoModel.operators
    (NengoModel.self
       (for_each [unimplemented_op; unprepared_op] NengoModel.add_op
          (example_model false)).2)
  = [unimplemented_op; unprepared_op].
Proof.
  rewrite (add_ops_unchecked [unimplemented_op; unprepared_op]
             (example_model false) eq_refl).
  reflexivity.
Defined.

(** X21: when the dispatch on [NengoBuilder] does not raise an exception
    of class [BuildError], [NengoBuilder.build] is that dispatch: its value
    is returned, any other exception goes through, and the dispatch on the
    base [Builder] is not attempted, whatever it would have done. *)
Theorem NengoBuilder_build_no_fallback :
  ∀ (Model Obj Args Value : Type)
    (Builder_build Builder_build' :
       NengoBuilder.builder_class → Obj → Args → M Model Value)
    (obj : Obj) (args : Args) (model : Model),
    (∀ e model',
       Builder_build NengoBuilder.NengoBuilder_cls obj args model
         = (Raised e, model') →
       isinstance_BuildError e = false) →
    (∀ m, Builder_build' NengoBuilder.NengoBuilder_cls obj args m
          = Builder_build NengoBuilder.NengoBuilder_cls obj args m) →
    NengoBuilder.build Builder_build obj args model
      = Builder_build NengoBuilder.NengoBuilder_cls obj args model ∧
    NengoBuilder.build Builder_build' obj args model
      = NengoBuilder.build Builder_build obj args model.
Proof.
  intros Model Obj Args Value D D' obj args model Hother Hsame.
  pose proof (NengoBuilder_build_cases D obj args model) as H.
  pose proof (NengoBuilder_build_cases D' obj args model) as H'.
  rewrite Hsame in H'.
  destruct (D NengoBuilder.NengoBuilder_cls obj args model) as [[v|e] m']
    eqn:Hrun.
  - rewrite H, H'. done.
  - rewrite (Hother e m' eq_refl) in H, H'. rewrite H, H'. done.
Qed.

Lemma NengoBuilder_build_no_fallback_witness :
  NengoBuilder.build
    (NengoBuilder.lookup_build op_type example_dispatch_type_error)
    copy1 tt []
  = (Raised (Exn TypeError "unsupported operand"), ["override began"]).
Proof.
  assert (Hother : ∀ e model',
            NengoBuilder.lookup_build op_type example_dispatch_type_error
              NengoBuilder.NengoBuilder_cls copy1 tt [] = (Raised e, model') →
            isinstance_BuildError e = false).
  { intros e model' Hrun. vm_compute in Hrun.
    injection Hrun as <- <-. reflexivity. }
  rewrite (proj1 (NengoBuilder_build_no_fallback (list string) Operator unit
                    pyvalue
                    (NengoBuilder.lookup_build op_type
                       example_dispatch_type_error)
                    (NengoBuilder.lookup_build op_type
                       example_dispatch_type_error)
                    copy1 tt [] Hother (λ _, eq_refl))).
  vm_compute. reflexivity.
Defined.

(** ** [build] runs the stored builders, not the registered classes *)

Lemma same_dom_lookup (reg reg' : gmap pytype pyclass) T :
  dom reg' = dom reg →
  (reg !! T = None ∧ reg' !! T = None) ∨
  (∃ B B', reg !! T = Some B ∧ reg' !! T = Some B').
Proof.
  intros Hdom.
  destruct (reg !! T) as [B|] eqn:H.
  - right. assert (T ∈ dom reg') as Hin by (rewrite Hdom; apply elem_of_dom; eauto).
    apply elem_of_dom in Hin as [B' HB']. eauto.
  - left. split; [done|]. apply not_elem_of_dom. rewrite Hdom.
    by apply not_elem_of_dom.
Qed.

Lemma build_group_same_but_classes sanitize_name progress ops se w w' :
  same_but_classes w w' →
  (build_group sanitize_name progress ops se w').1
    = (build_group sanitize_name progress ops se w).1 ∧
  same_but_classes (build_group sanitize_name progress ops se w).2
    (build_group sanitize_name progress ops se w').2.
Proof.
  intros (Hdom & Hw & Hl & Hc & Hs & Hp & Hsig & Hcfg & Hob).
  destruct (head ops) as [op0|] eqn:Hhd.
  - destruct (same_dom_lookup _ _ (op_type op0) Hdom)
      as [[Hreg Hreg'] | (B & B' & Hreg & Hreg')].
    + rewrite !(build_group_unregistered _ _ _ op0) by done. simpl.
      split; [done|]. unfold same_but_classes. simpl.
      repeat split; try done. by rewrite Hl.
    + destruct (op_builds (self w) !! ops) as [inst|] eqn:Hinst.
      * assert (Hinst' : op_builds (self w') !! ops = Some inst)
          by (by rewrite Hob).
        pose proof (build_group_spec sanitize_name progress ops op0 B inst se
                      w Hhd Hreg Hinst) as (Hb1 & Hp1 & Hc1 & Hob1 & Hr1).
        pose proof (build_group_state sanitize_name progress ops op0 B inst se
                      w Hhd Hreg Hinst)
          as (Hcfg1 & _ & Hsig1 & Hl1 & Hw1 & Hs1).
        pose proof (build_group_spec sanitize_name progress ops op0 B' inst se
                      w' Hhd Hreg' Hinst') as (Hb2 & Hp2 & Hc2 & Hob2 & Hr2).
        pose proof (build_group_state sanitize_name progress ops op0 B' inst
                      se w' Hhd Hreg' Hinst')
          as (Hcfg2 & _ & Hsig2 & Hl2 & Hw2 & Hs2).
        simpl in *. rewrite Hsig, Hl in *.
        split; [by rewrite Hr2, Hr1|].
        unfold same_but_classes.
        rewrite Hb1, Hb2, Hw1, Hw2, Hl1, Hl2, Hc1, Hc2, Hs1, Hs2, Hp1, Hp2,
          Hsig1, Hsig2, Hcfg1, Hcfg2, Hob1, Hob2.
        rewrite Hc, Hs, Hob.
        repeat (split; [first [reflexivity | assumption]|]).
        reflexivity.
      * assert (Hinst' : op_builds (self w') !! ops = None)
          by (by rewrite Hob).
        rewrite (build_group_no_builder sanitize_name progress ops op0 B se w),
          (build_group_no_builder sanitize_name progress ops op0 B' se w')
          by done.
        simpl.
        split; [done|]. unfold same_but_classes. simpl.
        repeat split; try done. by rewrite Hl.
  - destruct ops; [|done]. rewrite !build_group_empty. simpl.
    split; [done|]. unfold same_but_classes. simpl.
    repeat split; try done. by rewrite Hl.
Qed.

Lemma build_loop_same_but_classes sanitize_name progress l se w w' :
  same_but_classes w w' →
  (for_fold l (build_group sanitize_name progress) se w').1
    = (for_fold l (build_group sanitize_name progress) se w).1 ∧
  same_but_classes (for_fold l (build_group sanitize_name progress) se w).2
    (for_fold l (build_group sanitize_name progress) se w').2.
Proof.
  revert se w w'. induction l as [|ops l IH]; intros se w w' HR; [done|].
  simpl. unfold bind.
  destruct (build_group_same_but_classes sanitize_name progress ops se w w' HR)
    as [Hres HR'].
  destruct (build_group sanitize_name progress ops se w) as [r s].
  destruct (build_group sanitize_name progress ops se w') as [r' s'].
  simpl in *. subst r'. destruct r as [se'|e]; [by apply IH | done].
Qed.

(** X22: [build] runs the builders [pre_build] stored, whatever the
    registry says by then.  Replacing the registry by one that registers
    the same operator types with other classes changes neither the outcome
    of [build], nor the calls it makes, nor what it does to the stored
    builders and to the signals (it changes the names of the scopes). *)
Theorem build_uses_stored_builders :
  ∀ (sanitize_name : string → string) (progress : bool) (w : world)
    (reg' : gmap pytype pyclass),
    dom reg' = dom (builders (proc w)) →
    let w' := on_proc (set_builders (λ _, reg')) w in
    let res := build sanitize_name progress w in
    let res' := build sanitize_name progress w' in
    res'.1 = res.1 ∧
    calls (proc res'.2) = calls (proc res.2) ∧
    op_builds (self res'.2) = op_builds (self res.2) ∧
    signals (self res'.2) = signals (self res.2).
Proof.
  intros sanitize_name progress w reg' Hdom w' res res'. subst res res'.
  assert (HR : same_but_classes w w') by (repeat split; done).
  unfold build, bind, gets. simpl.
  destruct (build_loop_same_but_classes sanitize_name progress
              (plan (self w)) [] w w' HR)
    as (Hres & _ & _ & _ & Hc & _ & _ & Hsig & _ & Hob).
  done.
Qed.

Lemma build_uses_stored_builders_witness :
  let w1 := (pre_build (λ s, s) false example_world).2 in
  (build (λ s, s) false
     (on_proc (set_builders
                 (λ _, <[Reset_type := LazyBuilder]> (builders (proc w1))))
        w1)).1
  = (build (λ s, s) false w1).1.
Proof.
  intros w1.
  apply (build_uses_stored_builders (λ s, s) false w1
           (<[Reset_type := LazyBuilder]> (builders (proc w1)))).
  apply dom_insert_lookup_L. vm_compute. eexists. reflexivity.
Defined.

(** X23: [build] is not atomic either.  When the [build_step] of a group
    raises, [build] raises the same exception and returns no side effect,
    not even those of the groups before; what the failing step did to its
    instance and to the signals stays done. *)
Theorem build_step_raises_partial :
  ∀ (sanitize_name : string → string) (progress : bool) (w w1 : world)
    (done : list group) (ops : group) (rest : list group)
    (se1 : list pyvalue) (op0 : Operator) (B : pyclass) (inst : instance)
    (e : exn) (fr' : frame),
    plan (self w) = done ++ ops :: rest →
    for_fold done (build_group sanitize_name progress) [] w
      = (Returned se1, w1) →
    head ops = Some op0 →
    builders (proc w) !! op_type op0 = Some B →
    op_builds (self w1) !! ops = Some inst →
    resolve_build_step (inst_class inst)
      {| this := inst_attrs inst; sigdict := signals (self w1);
         logger := logged (proc w1) ++ build_records ops |}
      = (Raised e, fr') →
    ∃ w2,
      build sanitize_name progress w = (Raised e, w2) ∧
      op_builds (self w2) =
        <[ops := {| inst_class := inst_class inst; inst_attrs := this fr' |}]>
          (op_builds (self w1)) ∧
      signals (self w2) = sigdict fr' ∧
      calls (proc w2) = calls (proc w1) ++ [CallBuildStep ops (Raised e)].
Proof.
  intros sanitize_name progress w w1 done ops rest se1 op0 B inst e fr'
    Hplan Hdone Hhd Hreg Hinst Hstep.
  pose proof (build_loop_frame sanitize_name progress done [] w) as (Hb & _).
  rewrite Hdone in Hb. simpl in Hb. rewrite <- Hb in Hreg.
  pose proof (build_group_spec sanitize_name progress ops op0 B inst se1 w1
                Hhd Hreg Hinst) as (_ & _ & Hc & Hob & Hres).
  pose proof (build_group_state sanitize_name progress ops op0 B inst se1 w1
                Hhd Hreg Hinst) as (_ & _ & Hsig & _).
  simpl in *. rewrite Hstep in *. simpl in *.
  unfold build, bind, gets. rewrite Hplan, for_fold_app, Hdone. simpl.
  unfold bind.
  destruct (build_group sanitize_name progress ops se1 w1) as [r w2].
  simpl in *. subst r. by exists w2.
Qed.

Lemma build_step_raises_partial_witness :
  ∃ w2,
    build (λ s, s) false example_world_lazy
    = (Raised (Exn BuildError
                 "OpBuilders must implement a `build_step` function"), w2).
Proof.
  edestruct (build_step_raises_partial (λ s, s) false example_world_lazy
               example_world_lazy [] group_A [group_B] [] reset1 ResetBuilder
               {| inst_class := LazyBuilder; inst_attrs := ∅ |})
    as (w2 & Hrun & _);
    [reflexivity | reflexivity | reflexivity | vm_compute; reflexivity
    | vm_compute; reflexivity | reflexivity | ].
  exists w2. exact Hrun.
Defined.
